(** * Portfolio ledger and valuation engine of [app.py]

    A shallow embedding of the Flask application [app.py]: the purchase
    handler (the POST branch of [dashboard]), the valuation pass and the
    alert loop (its GET branch), [add_watch] and [add_alert].

    - Python [int] is [Z]; Python [float] is an IEEE 754 binary64 value,
      taken from the Standard Library's executable specification
      [SpecFloat] (round to nearest, ties to even).
    - A raised exception is the [Raise] case of the [result] monad.  A
      handler that raises commits nothing, as in the source, where
      [conn.commit()] is the last statement before the redirect.
    - The three tables are lists of rows in insertion order.  The surrogate
      [id] column is never read by the code and is left out.  A row is kept
      as it is written: the 64-bit range of an [INTEGER] column and what a
      [REAL] column does to a NaN and to -0.0 are hypotheses of the
      statements ([int64], [stored_real], [numeric_rows]), not behaviour of
      the tables.
    - Library calls whose text is not in [app.py] ([int], [float], [round],
      [datetime.strptime], [date.strftime], the yfinance download) are
      parameters of the development, so every theorem holds whatever they
      return; [Module Demo] instantiates them to run examples. *)

From Stdlib Require Import ZArith List String Ascii Bool Lia SpecFloat.
Import ListNotations.
Local Open Scope string_scope.
Local Open Scope list_scope.
Local Open Scope Z_scope.

(** ** Exceptions and the error monad *)

Inductive exn : Type :=
| ValueError
| OverflowError
| ZeroDivisionError
| BadRequestKeyError
| IntegrityError
| LibraryError.

Inductive result (A : Type) : Type :=
| Ok (a : A)
| Raise (e : exn).

Arguments Ok {A} a.
Arguments Raise {A} e.

Definition bind {A B : Type} (r : result A) (k : A -> result B) : result B :=
  match r with
  | Ok a => k a
  | Raise e => Raise e
  end.

Notation "x <- r ;; k" := (bind r (fun x => k))
  (at level 61, r at next level, right associativity).

(** ** Python floats *)

Module Float.

Definition prec : Z := 53.
Definition emax : Z := 1024.

Definition float : Type := spec_float.

Definition zero : float := S754_zero false.

Definition add : float -> float -> float := SFadd prec emax.
Definition sub : float -> float -> float := SFsub prec emax.
Definition mul : float -> float -> float := SFmul prec emax.
Definition div : float -> float -> float := SFdiv prec emax.

(** [a >= b], [a == b] and [a < b] on floats; all false on a NaN. *)
Definition geb (a b : float) : bool := SFleb b a.
Definition eqb (a b : float) : bool := SFeqb a b.
Definition ltb (a b : float) : bool := SFltb a b.

(** The float nearest to an integer. *)
Definition of_Z (z : Z) : float := binary_normalize prec emax z 0 false.

(** [float(n)] as the arithmetic operators apply it to an [int] operand:
    [OverflowError] when the nearest float is not finite. *)
Definition of_int (z : Z) : result float :=
  match of_Z z with
  | S754_infinity _ => Raise OverflowError
  | f => Ok f
  end.

(** [a / b]: Python raises on a zero divisor of either sign. *)
Definition truediv (a b : float) : result float :=
  match b with
  | S754_zero _ => Raise ZeroDivisionError
  | _ => Ok (div a b)
  end.

(** Mixed [float]/[int] arithmetic converts the [int] operand first. *)
Definition mul_float_int (a : float) (n : Z) : result float :=
  b <- of_int n ;; Ok (mul a b).

Definition mul_int_float (n : Z) (b : float) : result float :=
  a <- of_int n ;; Ok (mul a b).

Definition truediv_float_int (a : float) (n : Z) : result float :=
  b <- of_int n ;; truediv a b.

(** Sum of a list the way the loops accumulate: left to right from
    [0.0]. *)
Definition sum (l : list float) : float := fold_left add l zero.

End Float.

Abbreviation float := Float.float.

(** ** Strings: [str.upper] and [str.strip] on ASCII text *)

Definition upper_char (c : ascii) : ascii :=
  let n := N_of_ascii c in
  if ((97 <=? n) && (n <=? 122))%N then ascii_of_N (n - 32) else c.

Fixpoint upper (s : string) : string :=
  match s with
  | EmptyString => EmptyString
  | String c s' => String (upper_char c) (upper s')
  end.

(** The ASCII characters [str.isspace] accepts: tab to carriage return,
    the four separators 28 to 31, and the space. *)
Definition is_space (c : ascii) : bool :=
  let n := N_of_ascii c in
  (((9 <=? n) && (n <=? 13)) || ((28 <=? n) && (n <=? 32)))%N.

Fixpoint lstrip (s : string) : string :=
  match s with
  | EmptyString => EmptyString
  | String c s' => if is_space c then lstrip s' else s
  end.

Fixpoint rstrip (s : string) : string :=
  match s with
  | EmptyString => EmptyString
  | String c s' =>
      match rstrip s' with
      | EmptyString => if is_space c then EmptyString else String c EmptyString
      | r => String c r
      end
  end.

Definition strip (s : string) : string := rstrip (lstrip s).

(** ** Calendar dates ([datetime.date]) *)

Record date : Type := mkdate { year : Z; month : Z; day : Z }.

(** [a < b]: dates compare as their (year, month, day) triples. *)
Definition date_ltb (a b : date) : bool :=
  (year a <? year b)
  || ((year a =? year b)
      && ((month a <? month b) || ((month a =? month b) && (day a <? day b)))).

(** The builtin [min(a, b)]: the first argument unless the second is
    strictly smaller. *)
Definition date_min (a b : date) : date := if date_ltb b a then b else a.

Definition is_leap (y : Z) : bool :=
  (y mod 4 =? 0) && (negb (y mod 100 =? 0) || (y mod 400 =? 0)).

Definition days_before_year (y : Z) : Z :=
  let y1 := y - 1 in y1 * 365 + y1 / 4 - y1 / 100 + y1 / 400.

Definition days_before_month (y m : Z) : Z :=
  nth (Z.to_nat m) [0; 0; 31; 59; 90; 120; 151; 181; 212; 243; 273; 304; 334] 0
  + (if (2 <? m) && is_leap y then 1 else 0).

(** [date.toordinal()]: day 1 is 0001-01-01. *)
Definition toordinal (d : date) : Z :=
  days_before_year (year d) + days_before_month (year d) (month d) + day d.

(** [(a - b).days] *)
Definition days_between (a b : date) : Z := toordinal a - toordinal b.

(** ** The three tables *)

Record stock : Type := mkstock {
  symbol : string;
  quantity : Z;
  buy_price : float;
  buy_date : string;
  notes : string
}.

Record alert : Type := mkalert {
  alert_symbol : string;
  target : float
}.

Record database : Type := mkdb {
  stocks : list stock;
  watchlist : list string;
  alerts : list alert
}.

(** [init_db] on a fresh file: three empty tables. *)
Definition init_db : database := mkdb [] [] [].

Definition set_stocks (db : database) (rows : list stock) : database :=
  mkdb rows (watchlist db) (alerts db).

Definition set_watchlist (db : database) (rows : list string) : database :=
  mkdb (stocks db) rows (alerts db).

Definition set_alerts (db : database) (rows : list alert) : database :=
  mkdb (stocks db) (watchlist db) rows.

(** [SELECT quantity, buy_price, buy_date FROM stocks WHERE symbol=?]
    followed by [fetchone()]. *)
Definition select_stock (sym : string) (rows : list stock) : option stock :=
  find (fun r => String.eqb (symbol r) sym) rows.

(** [UPDATE stocks SET quantity=?, buy_price=?, buy_date=?, notes=?
    WHERE symbol=?] *)
Definition update_stock (sym : string) (q : Z) (bp : float) (d n : string)
    (rows : list stock) : list stock :=
  map (fun r => if String.eqb (symbol r) sym then mkstock (symbol r) q bp d n
                else r) rows.

(** [INSERT INTO stocks(...)]; [symbol] is declared [UNIQUE]. *)
Definition insert_stock (r : stock) (rows : list stock) : result (list stock) :=
  if existsb (fun r' => String.eqb (symbol r') (symbol r)) rows
  then Raise IntegrityError
  else Ok (rows ++ [r]).

(** [INSERT INTO watchlist(symbol)]; [symbol] is declared [UNIQUE]. *)
Definition insert_watch (sym : string) (rows : list string) : result (list string) :=
  if existsb (String.eqb sym) rows then Raise IntegrityError
  else Ok (rows ++ [sym]).

(** [INSERT INTO alerts(symbol, target)] *)
Definition insert_alert (a : alert) (rows : list alert) : list alert :=
  rows ++ [a].

(** ** Requests and responses *)

Definition form_data : Type := list (string * string).

Fixpoint form_lookup (f : form_data) (k : string) : option string :=
  match f with
  | [] => None
  | (k', v) :: f' => if String.eqb k' k then Some v else form_lookup f' k
  end.

(** [request.form[k]] *)
Definition form_item (f : form_data) (k : string) : result string :=
  match form_lookup f k with
  | Some v => Ok v
  | None => Raise BadRequestKeyError
  end.

(** [request.form.get(k, default)] *)
Definition form_get (f : form_data) (k default : string) : string :=
  match form_lookup f k with
  | Some v => v
  | None => default
  end.

Inductive http_method : Type := GET | POST.

Record request : Type := mkrequest { method : http_method; form : form_data }.

(** One dict of the [portfolio] list handed to the template. *)
Record portfolio_dict : Type := mkportfolio_dict {
  p_symbol : string;
  p_qty : Z;
  p_bp : float;
  p_live : float;
  p_invest : float;
  p_current : float;
  p_profit : float;
  p_notes : string;
  p_buy_date : string;
  p_holding_type : string;
  p_invalid : bool
}.

Record alert_dict : Type := mkalert_dict {
  a_symbol : string;
  a_target : float;
  a_live : float;
  a_hit : bool
}.

Record trending_dict : Type := mktrending_dict {
  t_symbol : string;
  t_price : float
}.

(** The keyword arguments of [render_template]. *)
Record template_context : Type := mkcontext {
  ctx_portfolio : list portfolio_dict;
  ctx_total_invested : float;
  ctx_total_value : float;
  ctx_total_profit : float;
  ctx_total_long_pl : float;
  ctx_total_short_pl : float;
  ctx_watchlist : list string;
  ctx_alerts : list alert_dict;
  ctx_trending : list trending_dict
}.

Inductive response : Type :=
| Redirect (location : string)
| Render (ctx : template_context).

Definition TRENDING : list string :=
  ["TSLA"; "AAPL"; "GOOGL"; "META"; "NVDA"; "MSFT"; "AMZN"; "NFLX"].

(** A [for] loop whose body may raise. *)
Fixpoint for_each {S A : Type} (body : S -> A -> result S) (l : list A) (st : S)
    : result S :=
  match l with
  | [] => Ok st
  | x :: l' => st' <- body st x ;; for_each body l' st'
  end.

(** ** Library calls

    What [app.py] calls but does not define.  [strptime d] is
    [datetime.strptime(d, "%Y-%m-%d").date()], [strftime d] is
    [d.strftime("%Y-%m-%d")], [int_of_str] and [float_of_str] are the
    builtins [int] and [float] on a form value, [round2 x] is [round(x, 2)]
    and [history_close s] is the ["Close"] column of
    [yf.Ticker(s).history(period="1d")]. *)

Record library : Type := mklibrary {
  strptime : string -> result date;
  strftime : date -> string;
  int_of_str : string -> result Z;
  float_of_str : string -> result float;
  round2 : float -> float;
  history_close : string -> result (list float)
}.

Section App.

Variable lib : library.

(** *** [get_live_price] and [parse_date] *)

Definition get_live_price (sym : string) : option float :=
  match history_close lib sym with
  | Ok (p :: _) => Some p
  | Ok [] => None
  | Raise _ => None
  end.

Definition parse_date (d : string) : option date :=
  match strptime lib d with
  | Ok dt => Some dt
  | Raise _ => None
  end.

(** *** The POST branch of [dashboard]: add or update a stock *)

(** Lines 69 to 73: the purchase date and its text after the fallback to
    today. *)
Definition normalize_buy_date (today : date) (buy_date_str : string)
    : date * string :=
  match parse_date buy_date_str with
  | Some d =>
      if date_ltb today d then (today, strftime lib today)
      else (d, buy_date_str)
  | None => (today, strftime lib today)
  end.

(** Lines 69 to 99, once the form values are converted. *)
Definition record_purchase (sym : string) (qty : Z) (price : float)
    (buy_date_str note : string) (today : date) (db : database)
    : result database :=
  let '(buy_dt, buy_date_str) := normalize_buy_date today buy_date_str in
  match select_stock sym (stocks db) with
  | Some row =>
      let old_qty := quantity row in
      let old_bp := buy_price row in
      let old_date_str := buy_date row in
      let new_qty := old_qty + qty in
      a <- Float.mul_float_int old_bp old_qty ;;
      b <- Float.mul_float_int price qty ;;
      new_bp <- Float.truediv_float_int (Float.add a b) new_qty ;;
      let old_date :=
        match parse_date old_date_str with
        | Some d => d
        | None => buy_dt
        end in
      let final_date := date_min old_date buy_dt in
      Ok (set_stocks db
            (update_stock sym new_qty new_bp (strftime lib final_date) note
               (stocks db)))
  | None =>
      rows <- insert_stock (mkstock sym qty price buy_date_str note) (stocks db) ;;
      Ok (set_stocks db rows)
  end.

(** Lines 63 to 101. *)
Definition dashboard_post (f : form_data) (today : date) (db : database)
    : result database :=
  raw_symbol <- form_item f "symbol" ;;
  let sym := strip (upper raw_symbol) in
  raw_quantity <- form_item f "quantity" ;;
  qty <- int_of_str lib raw_quantity ;;
  raw_price <- form_item f "buy_price" ;;
  price <- float_of_str lib raw_price ;;
  buy_date_str <- form_item f "buy_date" ;;
  let note := strip (form_get f "notes" "") in
  record_purchase sym qty price buy_date_str note today db.

(** *** The GET branch of [dashboard]: portfolio calculations *)

(** The local variables of one iteration of the portfolio loop, before
    rounding. *)
Record valuation : Type := mkvaluation {
  v_row : stock;
  v_live_price : option float;
  v_invalid : bool;
  v_live_val : float;
  v_invested : float;
  v_current : float;
  v_pl : float;
  v_parsed : option date;
  v_holding_type : string
}.

(** Lines 138 to 147, the classification alone. *)
Definition holding_type_of (today : date) (d : option date) : string :=
  match d with
  | Some d => if 365 <? days_between today d then "Long" else "Short"
  | None => "N/A"
  end.

(** Lines 127 to 147 without the running totals. *)
Definition valuate_row (today : date) (r : stock) : result valuation :=
  let live_price := get_live_price (symbol r) in
  let invalid := match live_price with None => true | Some _ => false end in
  let live_val := match live_price with Some p => p | None => Float.zero end in
  invested <- Float.mul_int_float (quantity r) (buy_price r) ;;
  current <- Float.mul_int_float (quantity r) live_val ;;
  let pl := Float.sub current invested in
  let d := parse_date (buy_date r) in
  Ok (mkvaluation r live_price invalid live_val invested current pl d
        (holding_type_of today d)).

(** Lines 149 to 161: the dict appended to [portfolio]. *)
Definition portfolio_entry (v : valuation) : portfolio_dict :=
  mkportfolio_dict
    (symbol (v_row v))
    (quantity (v_row v))
    (round2 lib (buy_price (v_row v)))
    (round2 lib (v_live_val v))
    (round2 lib (v_invested v))
    (round2 lib (v_current v))
    (round2 lib (v_pl v))
    (notes (v_row v))
    (buy_date (v_row v))
    (v_holding_type v)
    (v_invalid v).

(** The variables the portfolio loop updates. *)
Record totals : Type := mktotals {
  portfolio : list portfolio_dict;
  total_invested : float;
  total_value : float;
  total_long_pl : float;
  total_short_pl : float
}.

(** Lines 119 to 123. *)
Definition totals_init : totals :=
  mktotals [] Float.zero Float.zero Float.zero Float.zero.

(** One iteration of the loop of lines 126 to 161. *)
Definition portfolio_step (today : date) (st : totals) (r : stock)
    : result totals :=
  v <- valuate_row today r ;;
  let total_invested := Float.add (total_invested st) (v_invested v) in
  let total_value := Float.add (total_value st) (v_current v) in
  let '(total_long_pl, total_short_pl) :=
    match v_parsed v with
    | Some d =>
        if 365 <? days_between today d
        then (Float.add (total_long_pl st) (v_pl v), total_short_pl st)
        else (total_long_pl st, Float.add (total_short_pl st) (v_pl v))
    | None => (total_long_pl st, total_short_pl st)
    end in
  Ok (mktotals (portfolio st ++ [portfolio_entry v])
        total_invested total_value total_long_pl total_short_pl).

(** The unrounded results of lines 118 to 163. *)
Record calculations : Type := mkcalculations {
  calc_totals : totals;
  total_profit : float
}.

Definition portfolio_calculations (today : date) (stock_rows : list stock)
    : result calculations :=
  st <- for_each (portfolio_step today) stock_rows totals_init ;;
  Ok (mkcalculations st (Float.sub (total_value st) (total_invested st))).

(** Lines 166 to 175: the dict built for one alert row. *)
Definition alert_entry (a : alert) : alert_dict :=
  let lp := get_live_price (alert_symbol a) in
  let live_val := match lp with Some p => p | None => Float.zero end in
  mkalert_dict (alert_symbol a) (round2 lib (target a)) (round2 lib live_val)
    (match lp with
     | Some _ => Float.geb live_val (target a)
     | None => false
     end).

(** Lines 178 to 184. *)
Definition trending_entry (t : string) : trending_dict :=
  mktrending_dict t
    (round2 lib (match get_live_price t with Some p => p | None => Float.zero end)).

(** Lines 103 to 199. *)
Definition dashboard_get (today : date) (db : database) : result template_context :=
  c <- portfolio_calculations today (stocks db) ;;
  let st := calc_totals c in
  Ok (mkcontext
        (portfolio st)
        (round2 lib (total_invested st))
        (round2 lib (total_value st))
        (round2 lib (total_profit c))
        (round2 lib (total_long_pl st))
        (round2 lib (total_short_pl st))
        (watchlist db)
        (map alert_entry (alerts db))
        (map trending_entry TRENDING)).

Definition dashboard (req : request) (today : date) (db : database)
    : result (database * response) :=
  match method req with
  | POST =>
      db' <- dashboard_post (form req) today db ;;
      Ok (db', Redirect "/")
  | GET =>
      ctx <- dashboard_get today db ;;
      Ok (db, Render ctx)
  end.

(** *** [add_watch] and [add_alert] *)

Definition add_watch (req : request) (db : database) : result (database * response) :=
  raw_symbol <- form_item (form req) "symbol" ;;
  let sym := strip (upper raw_symbol) in
  if String.eqb sym "" then Ok (db, Redirect "/")
  else
    match insert_watch sym (watchlist db) with
    | Ok rows => Ok (set_watchlist db rows, Redirect "/")
    | Raise IntegrityError => Ok (db, Redirect "/")
    | Raise e => Raise e
    end.

Definition add_alert (req : request) (db : database) : result (database * response) :=
  raw_symbol <- form_item (form req) "symbol" ;;
  let sym := strip (upper raw_symbol) in
  raw_target <- form_item (form req) "target" ;;
  tgt <- float_of_str lib raw_target ;;
  Ok (set_alerts db (insert_alert (mkalert sym tgt) (alerts db)), Redirect "/").

End App.

(** ** A concrete library, to run the handlers

    ISO dates, plain decimal literals, rounding to two places, and quotes
    read from a table (a symbol missing from the table has no data). *)

Module Demo.

Definition digit_of (c : ascii) : option Z :=
  let n := N_of_ascii c in
  if ((48 <=? n) && (n <=? 57))%N then Some (Z.of_N (n - 48)) else None.

Fixpoint digits_value (s : string) (acc : Z) : option Z :=
  match s with
  | EmptyString => Some acc
  | String c s' =>
      match digit_of c with
      | Some d => digits_value s' (10 * acc + d)
      | None => None
      end
  end.

Definition parse_digits (s : string) : option Z :=
  match s with
  | EmptyString => None
  | _ => digits_value s 0
  end.

(** Splits at the first occurrence of [sep]. *)
Fixpoint split_at (sep : ascii) (s : string) : option (string * string) :=
  match s with
  | EmptyString => None
  | String c s' =>
      if Ascii.eqb c sep then Some (EmptyString, s')
      else match split_at sep s' with
           | Some (l, r) => Some (String c l, r)
           | None => None
           end
  end.

Definition days_in_month (y m : Z) : Z :=
  if m =? 2 then (if is_leap y then 29 else 28)
  else if (m =? 4) || (m =? 6) || (m =? 9) || (m =? 11) then 30 else 31.

Definition strptime (s : string) : result date :=
  match split_at "-" s with
  | Some (ys, rest) =>
      match split_at "-" rest with
      | Some (ms, ds) =>
          match parse_digits ys, parse_digits ms, parse_digits ds with
          | Some y, Some m, Some d =>
              if (String.length ys =? 4)%nat
                 && (String.length ms <=? 2)%nat && (String.length ds <=? 2)%nat
                 && (1 <=? y) && (1 <=? m) && (m <=? 12)
                 && (1 <=? d) && (d <=? days_in_month y m)
              then Ok (mkdate y m d)
              else Raise ValueError
          | _, _, _ => Raise ValueError
          end
      | None => Raise ValueError
      end
  | None => Raise ValueError
  end.

Definition digit_char (n : Z) : ascii := ascii_of_N (48 + Z.to_N (n mod 10)).

Definition pad2 (n : Z) : string :=
  String (digit_char (n / 10)) (String (digit_char n) EmptyString).

Definition pad4 (n : Z) : string :=
  String (digit_char (n / 1000)) (String (digit_char (n / 100)) (pad2 n)).

Definition strftime (d : date) : string :=
  String.append (pad4 (year d))
    (String "-" (String.append (pad2 (month d)) (String "-" (pad2 (day d))))).

Definition signed (s : string) : bool * string :=
  match s with
  | String "-" r => (true, r)
  | String "+" r => (false, r)
  | _ => (false, s)
  end.

Definition int_of_str (s : string) : result Z :=
  let '(neg, body) := signed (strip s) in
  match parse_digits body with
  | Some n => Ok (if neg then - n else n)
  | None => Raise ValueError
  end.

(** Digits with an optional fraction: the quotient of two integers. *)
Definition float_of_str (s : string) : result float :=
  let '(neg, body) := signed (strip s) in
  let '(ip, fp) :=
    match split_at "." body with
    | Some (i, f) => (i, f)
    | None => (body, EmptyString)
    end in
  match parse_digits (String.append ip fp) with
  | Some n =>
      let x := Float.div (Float.of_Z n)
                 (Float.of_Z (10 ^ Z.of_nat (String.length fp))) in
      Ok (if neg then SFopp x else x)
  | None => Raise ValueError
  end.

(** Nearest integer, ties to even, of [n / d] for [0 <= n] and [0 < d]. *)
Definition round_half_even (n d : Z) : Z :=
  let q := n / d in
  let r := n mod d in
  match 2 * r ?= d with
  | Lt => q
  | Gt => q + 1
  | Eq => if Z.even q then q else q + 1
  end.

(** A float whose unit in the last place is above one hundredth is its
    own rounding. *)
Definition round2 (x : float) : float :=
  match x with
  | S754_finite s m e =>
      if -7 <? e then x
      else
        let n := round_half_even (Z.pos m * 100) (2 ^ (- e)) in
        let r := Float.div (Float.of_Z n) (Float.of_Z 100) in
        if s then SFopp r else r
  | _ => x
  end.

Definition history_close (table : list (string * float)) (s : string)
    : result (list float) :=
  match find (fun kv => String.eqb (fst kv) s) table with
  | Some kv => Ok [snd kv]
  | None => Ok []
  end.

Definition lib (table : list (string * float)) : library :=
  mklibrary strptime strftime int_of_str float_of_str round2
    (history_close table).

End Demo.

(** ** Vocabulary of the statements *)

(** The range of an SQLite [INTEGER] column, where every stored quantity
    lives. *)
Definition int64 (z : Z) : Prop := - 2 ^ 63 <= z < 2 ^ 63.

(** The quantities for which the merge arithmetic of lines 82 and 83 is
    defined: every [int] operand is a 64-bit integer and the divisor is
    not zero. *)
Definition merge_defined (q0 q : Z) : Prop :=
  int64 q0 /\ int64 q /\ int64 (q0 + q) /\ q0 + q <> 0.

(** The floats a [REAL] column gives back as they were written.  SQLite
    keeps NULL in place of a NaN and gives 0.0 back for -0.0; the tables of
    this development keep the float as written, so what is said of a price
    or target read back is said of these. *)
Definition stored_real (x : float) : Prop :=
  x <> S754_nan /\ x <> S754_zero true.

(** A finite price that is not negative. *)
Definition nonneg_price (x : float) : Prop :=
  match x with
  | S754_zero false | S754_finite false _ _ => True
  | _ => False
  end.

(** A number that is not negative, [+inf] included. *)
Definition nonneg_float (x : float) : Prop :=
  match x with
  | S754_zero false | S754_infinity false | S754_finite false _ _ => True
  | _ => False
  end.

(** The rows hold numbers: no price and no target is the NaN that stands
    for a NULL. *)
Definition numeric_rows (db : database) : Prop :=
  Forall (fun r => buy_price r <> S754_nan) (stocks db) /\
  Forall (fun a => target a <> S754_nan) (alerts db).

(** The data model's invariants of the [stocks] table: one row per symbol
    (the [UNIQUE] constraint) and positive quantities. *)
Definition unique_symbols (db : database) : Prop :=
  NoDup (map symbol (stocks db)).

Definition positive_quantities (db : database) : Prop :=
  Forall (fun r => 0 < quantity r) (stocks db).

(** Line 83 in float arithmetic. *)
Definition weighted_average (c0 : float) (q0 : Z) (p : float) (q : Z) : float :=
  Float.div
    (Float.add (Float.mul c0 (Float.of_Z q0)) (Float.mul p (Float.of_Z q)))
    (Float.of_Z (q0 + q)).

(** The per-row variables of a whole pass, in row order. *)
Fixpoint valuate_all (lib : library) (today : date) (rows : list stock)
    : result (list valuation) :=
  match rows with
  | [] => Ok []
  | r :: rows' =>
      v <- valuate_row lib today r ;;
      vs <- valuate_all lib today rows' ;;
      Ok (v :: vs)
  end.

Definition in_class (c : string) (v : valuation) : bool :=
  String.eqb (v_holding_type v) c.

Definition int64_rows (rows : list stock) : Prop :=
  Forall (fun r => int64 (quantity r)) rows.

(** What a pass over [vs] leaves in the loop variables, starting from
    [st]: every row adds to the two totals, and only the rows of a class
    add to that class's profit and loss. *)
Definition totals_after (lib : library) (st : totals) (vs : list valuation)
    : totals :=
  mktotals
    (portfolio st ++ map (portfolio_entry lib) vs)
    (fold_left Float.add (map v_invested vs) (total_invested st))
    (fold_left Float.add (map v_current vs) (total_value st))
    (fold_left Float.add (map v_pl (filter (in_class "Long") vs))
       (total_long_pl st))
    (fold_left Float.add (map v_pl (filter (in_class "Short") vs))
       (total_short_pl st)).

(** What [valuate_row] guarantees about its result. *)
Definition valuation_of (lib : library) (today : date) (r : stock)
    (v : valuation) : Prop :=
  v_row v = r /\
  v_live_price v = get_live_price lib (symbol r) /\
  v_invalid v = match v_live_price v with None => true | Some _ => false end /\
  v_live_val v = match v_live_price v with Some p => p | None => Float.zero end /\
  v_invested v = Float.mul (Float.of_Z (quantity r)) (buy_price r) /\
  v_current v = Float.mul (Float.of_Z (quantity r)) (v_live_val v) /\
  v_pl v = Float.sub (v_current v) (v_invested v) /\
  v_parsed v = parse_date lib (buy_date r) /\
  v_holding_type v = holding_type_of today (v_parsed v).

(** ** Integers convert to finite floats *)

Lemma digits2_pos_size (p : positive) : digits2_pos p = Pos.size p.
Proof. induction p; simpl; congruence. Qed.

Lemma Zdigits2_log2 (z : Z) : 0 < z -> Zdigits2 z = Z.log2 z + 1.
Proof.
  destruct z as [|p|p]; try lia. intros _.
  unfold Zdigits2. rewrite digits2_pos_size.
  destruct p; simpl; lia.
Qed.

Lemma shr_1_m (mrs : shr_record) :
  0 <= shr_m mrs -> shr_m (shr_1 mrs) = Z.div2 (shr_m mrs).
Proof.
  destruct mrs as [m r s]; simpl. intros Hm.
  destruct m as [|[p|p|]|p]; try reflexivity; lia.
Qed.

Lemma div2_nonneg (z : Z) : 0 <= z -> 0 <= Z.div2 z.
Proof. intros H. rewrite Z.div2_nonneg. exact H. Qed.

Lemma iter_div2_nonneg (p : positive) (z : Z) :
  0 <= z -> 0 <= Pos.iter Z.div2 z p.
Proof.
  intros H. apply Pos.iter_invariant; [| exact H].
  intros x Hx. apply div2_nonneg. exact Hx.
Qed.

Lemma iter_pos_shr_1 (p : positive) (mrs : shr_record) :
  0 <= shr_m mrs ->
  shr_m (iter_pos shr_1 p mrs) = Pos.iter Z.div2 (shr_m mrs) p.
Proof.
  revert mrs. induction p as [p IH|p IH|]; intros mrs Hm; simpl.
  - rewrite IH.
    + rewrite IH.
      * rewrite shr_1_m by exact Hm.
        rewrite <- Pos.iter_swap. rewrite <- Pos.iter_swap. reflexivity.
      * rewrite shr_1_m by exact Hm. apply div2_nonneg. exact Hm.
    + rewrite IH.
      * apply iter_div2_nonneg. rewrite shr_1_m by exact Hm.
        apply div2_nonneg. exact Hm.
      * rewrite shr_1_m by exact Hm. apply div2_nonneg. exact Hm.
  - rewrite IH.
    + rewrite IH by exact Hm. reflexivity.
    + rewrite IH by exact Hm. apply iter_div2_nonneg. exact Hm.
  - apply shr_1_m. exact Hm.
Qed.

Lemma shr_m_shiftr (mrs : shr_record) (e n : Z) :
  0 <= shr_m mrs -> 0 <= n ->
  shr_m (fst (shr mrs e n)) = Z.shiftr (shr_m mrs) n /\
  snd (shr mrs e n) = e + n.
Proof.
  intros Hm Hn. destruct n as [|p|p]; try lia; simpl.
  - split; [reflexivity | lia].
  - split; [| reflexivity]. apply iter_pos_shr_1. exact Hm.
Qed.

Lemma round_nearest_even_bounds (m : Z) (l : location) :
  m <= round_nearest_even m l <= m + 1.
Proof.
  destruct l as [|[| |]]; simpl; try lia.
  destruct (Z.even m); lia.
Qed.

Lemma log2_pos_of_eq (z n : Z) : Z.log2 z = n -> 0 < n -> 0 < z.
Proof.
  intros H Hn. destruct (Z.ltb_spec 0 z) as [Hz|Hz]; [exact Hz|].
  rewrite Z.log2_nonpos in H by exact Hz. lia.
Qed.

(** Rounding an exact value of at least 53 bits that lies in the normal
    range gives a finite float of the same sign. *)
Lemma binary_round_aux_finite (s : bool) (mx ex : Z) :
  0 < mx -> 53 <= Zdigits2 mx ->
  1 <= Zdigits2 mx + ex <= 1023 ->
  exists m e,
    binary_round_aux Float.prec Float.emax s mx ex loc_Exact = S754_finite s m e.
Proof.
  intros Hmx Hd Hr.
  unfold binary_round_aux, shr_fexp.
  assert (Hk : SpecFloat.fexp Float.prec Float.emax (Zdigits2 mx + ex) - ex
               = Zdigits2 mx - 53).
  { unfold SpecFloat.fexp, emin, Float.prec, Float.emax. lia. }
  rewrite Hk.
  destruct (shr_m_shiftr (shr_record_of_loc mx loc_Exact) ex (Zdigits2 mx - 53))
    as [Hm1 He1]; [simpl; lia | lia |].
  destruct (shr (shr_record_of_loc mx loc_Exact) ex (Zdigits2 mx - 53))
    as [mrs1 e1]. simpl in Hm1, He1.
  assert (Hl1 : Z.log2 (shr_m mrs1) = 52).
  { rewrite Hm1, Z.log2_shiftr by exact Hmx.
    rewrite Zdigits2_log2 in * by exact Hmx. lia. }
  assert (Hp1 : 0 < shr_m mrs1) by (eapply log2_pos_of_eq; [exact Hl1 | lia]).
  pose proof (round_nearest_even_bounds (shr_m mrs1) (loc_of_shr_record mrs1))
    as Hb.
  set (m2 := round_nearest_even (shr_m mrs1) (loc_of_shr_record mrs1)) in *.
  assert (Hp2 : 0 < m2) by lia.
  assert (Hl2 : 52 <= Z.log2 m2 <= 53).
  { split.
    - rewrite <- Hl1. apply Z.log2_le_mono. lia.
    - transitivity (Z.log2 (Z.succ (shr_m mrs1))).
      + apply Z.log2_le_mono. lia.
      + pose proof (Z.log2_succ_le (shr_m mrs1)). lia. }
  assert (Hk2 : SpecFloat.fexp Float.prec Float.emax (Zdigits2 m2 + e1) - e1
                = Z.log2 m2 - 52).
  { rewrite (Zdigits2_log2 m2) by exact Hp2.
    unfold SpecFloat.fexp, emin, Float.prec, Float.emax. lia. }
  rewrite Hk2.
  destruct (shr_m_shiftr (shr_record_of_loc m2 loc_Exact) e1 (Z.log2 m2 - 52))
    as [Hm3 He3]; [simpl; lia | lia |].
  destruct (shr (shr_record_of_loc m2 loc_Exact) e1 (Z.log2 m2 - 52))
    as [mrs3 e3]. simpl in Hm3, He3.
  assert (Hl3 : Z.log2 (shr_m mrs3) = 52).
  { rewrite Hm3, Z.log2_shiftr by exact Hp2. lia. }
  assert (Hp3 : 0 < shr_m mrs3) by (eapply log2_pos_of_eq; [exact Hl3 | lia]).
  destruct (shr_m mrs3) as [|m3|m3]; try lia.
  assert (He : (e3 <=? Float.emax - Float.prec) = true).
  { apply Z.leb_le. unfold Float.emax, Float.prec. lia. }
  rewrite He. eauto.
Qed.

Lemma digits2_pos_iter_xO (p n : positive) :
  Z.pos (digits2_pos (Pos.iter xO p n)) = Z.pos (digits2_pos p) + Z.pos n.
Proof.
  induction n as [|n IH] using Pos.peano_ind.
  - simpl. lia.
  - rewrite Pos.iter_succ. simpl digits2_pos. lia.
Qed.

Lemma binary_round_int_finite (s : bool) (p : positive) :
  Z.pos p < 2 ^ 1023 ->
  exists m e, binary_round Float.prec Float.emax s p 0 = S754_finite s m e.
Proof.
  intros Hp.
  assert (Hd : 1 <= Z.pos (digits2_pos p) <= 1023).
  { pose proof (Zdigits2_log2 (Z.pos p) eq_refl) as H. unfold Zdigits2 in H.
    pose proof (Z.log2_nonneg (Z.pos p)).
    assert (Z.log2 (Z.pos p) < 1023) by (apply Z.log2_lt_pow2; [lia | exact Hp]).
    lia. }
  unfold binary_round, shl_align.
  assert (Hf : SpecFloat.fexp Float.prec Float.emax (Z.pos (digits2_pos p) + 0) - 0
               = Z.pos (digits2_pos p) - 53).
  { unfold SpecFloat.fexp, emin, Float.prec, Float.emax. lia. }
  rewrite Hf.
  destruct (Z.pos (digits2_pos p) - 53) as [|k|k] eqn:Hk.
  - apply binary_round_aux_finite; unfold Zdigits2; lia.
  - apply binary_round_aux_finite; unfold Zdigits2; lia.
  - assert (Hf0 : SpecFloat.fexp Float.prec Float.emax (Z.pos (digits2_pos p) + 0)
                  = Z.pos (digits2_pos p) - 53) by lia.
    rewrite Hf0.
    pose proof (digits2_pos_iter_xO p k) as Hi.
    apply binary_round_aux_finite; unfold Zdigits2; lia.
Qed.

(** Every nonzero integer below [2^1023] in magnitude has a finite, nonzero
    nearest float of its own sign; in particular all 64-bit integers do. *)
Lemma of_Z_finite (z : Z) :
  z <> 0 -> Z.abs z < 2 ^ 1023 ->
  exists m e, Float.of_Z z = S754_finite (z <? 0) m e.
Proof.
  intros Hz Hb. unfold Float.of_Z, binary_normalize.
  destruct z as [|p|p]; [congruence | |].
  - apply binary_round_int_finite. exact Hb.
  - apply binary_round_int_finite. exact Hb.
Qed.

Lemma of_int_finite (z : Z) :
  z <> 0 -> Z.abs z < 2 ^ 1023 ->
  exists m e, Float.of_int z = Ok (S754_finite (z <? 0) m e).
Proof.
  intros Hz Hb. destruct (of_Z_finite z Hz Hb) as (m & e & H).
  exists m, e. unfold Float.of_int. rewrite H. reflexivity.
Qed.

Lemma of_int_zero : Float.of_int 0 = Ok Float.zero.
Proof. reflexivity. Qed.


(** ** Arithmetic of the handlers on 64-bit quantities *)

Lemma int64_float_range (z : Z) : int64 z -> Z.abs z < 2 ^ 1023.
Proof.
  unfold int64. intros H.
  assert (2 ^ 63 < 2 ^ 1023) by (apply Z.pow_lt_mono_r; lia).
  lia.
Qed.

Lemma of_int_int64 (z : Z) : int64 z -> Float.of_int z = Ok (Float.of_Z z).
Proof.
  intros H. destruct (Z.eq_dec z 0) as [->|Hz]; [reflexivity|].
  destruct (of_Z_finite z Hz (int64_float_range z H)) as (m & e & E).
  unfold Float.of_int. rewrite E. reflexivity.
Qed.

Lemma mul_float_int_int64 (a : float) (n : Z) :
  int64 n -> Float.mul_float_int a n = Ok (Float.mul a (Float.of_Z n)).
Proof.
  intros H. unfold Float.mul_float_int. rewrite of_int_int64 by exact H.
  reflexivity.
Qed.

Lemma mul_int_float_int64 (n : Z) (b : float) :
  int64 n -> Float.mul_int_float n b = Ok (Float.mul (Float.of_Z n) b).
Proof.
  intros H. unfold Float.mul_int_float. rewrite of_int_int64 by exact H.
  reflexivity.
Qed.

Lemma truediv_float_int_int64 (a : float) (n : Z) :
  int64 n -> n <> 0 ->
  Float.truediv_float_int a n = Ok (Float.div a (Float.of_Z n)).
Proof.
  intros H Hn. unfold Float.truediv_float_int.
  rewrite of_int_int64 by exact H. simpl.
  destruct (of_Z_finite n Hn (int64_float_range n H)) as (m & e & E).
  rewrite E. reflexivity.
Qed.

(** A quantity times a zero of positive sign. *)
Lemma mul_of_Z_zero (n : Z) :
  int64 n -> Float.mul (Float.of_Z n) Float.zero = S754_zero (n <? 0).
Proof.
  intros H. destruct (Z.eq_dec n 0) as [->|Hn]; [reflexivity|].
  destruct (of_Z_finite n Hn (int64_float_range n H)) as (m & e & E).
  rewrite E. simpl. now rewrite xorb_false_r.
Qed.

(** ** The [stocks] table *)

Lemma select_stock_symbol (sym : string) (rows : list stock) (row : stock) :
  select_stock sym rows = Some row -> symbol row = sym.
Proof.
  intros H. apply find_some in H. destruct H as [_ H].
  apply String.eqb_eq. exact H.
Qed.

Lemma select_update_stock (sym : string) (q : Z) (bp : float) (d n : string)
    (rows : list stock) (row : stock) :
  select_stock sym rows = Some row ->
  select_stock sym (update_stock sym q bp d n rows) = Some (mkstock sym q bp d n).
Proof.
  unfold select_stock, update_stock.
  induction rows as [|r rows IH]; simpl; [discriminate|].
  destruct (String.eqb (symbol r) sym) eqn:E.
  - intros _. simpl. rewrite E. apply String.eqb_eq in E. now rewrite E.
  - intros H. rewrite E. apply IH. exact H.
Qed.

Lemma select_none_existsb (sym : string) (rows : list stock) :
  select_stock sym rows = None ->
  existsb (fun r' => String.eqb (symbol r') sym) rows = false.
Proof.
  unfold select_stock.
  induction rows as [|r rows IH]; simpl; [reflexivity|].
  destruct (String.eqb (symbol r) sym); [discriminate | exact IH].
Qed.

Lemma select_app_new (sym : string) (rows : list stock) (r : stock) :
  select_stock sym rows = None -> symbol r = sym ->
  select_stock sym (rows ++ [r]) = Some r.
Proof.
  unfold select_stock. intros Hn Hs.
  induction rows as [|r0 rows IH]; simpl in *.
  - rewrite Hs, String.eqb_refl. reflexivity.
  - destruct (String.eqb (symbol r0) sym); [discriminate | apply IH; exact Hn].
Qed.

(** ** Dates *)

Lemma date_ltb_irrefl (d : date) : date_ltb d d = false.
Proof.
  unfold date_ltb. rewrite !Z.ltb_irrefl, !Z.eqb_refl. reflexivity.
Qed.

Lemma date_ltb_lex (a b : date) :
  date_ltb a b = true <->
  year a < year b \/
  (year a = year b /\ (month a < month b \/ (month a = month b /\ day a < day b))).
Proof.
  unfold date_ltb.
  rewrite !orb_true_iff, !andb_true_iff, !orb_true_iff, !andb_true_iff.
  rewrite !Z.ltb_lt, !Z.eqb_eq. tauto.
Qed.

Lemma date_ltb_false_lex (a b : date) :
  date_ltb a b = false <->
  year b < year a \/
  (year b = year a /\ (month b < month a \/ (month b = month a /\ day b <= day a))).
Proof.
  rewrite <- not_true_iff_false, date_ltb_lex. lia.
Qed.

Lemma date_min_cases (a b : date) : date_min a b = a \/ date_min a b = b.
Proof. unfold date_min. destruct (date_ltb b a); auto. Qed.

(** [date_min a b] is not after [a] and not after [b]. *)
Lemma date_min_lower (a b : date) :
  date_ltb a (date_min a b) = false /\ date_ltb b (date_min a b) = false.
Proof.
  unfold date_min. destruct (date_ltb b a) eqn:E.
  - split; [| apply date_ltb_irrefl].
    apply date_ltb_false_lex. apply date_ltb_lex in E. lia.
  - split; [apply date_ltb_irrefl | exact E].
Qed.

Lemma date_min_same (d : date) : date_min d d = d.
Proof. unfold date_min. now rewrite date_ltb_irrefl. Qed.

(** A minimum with a date that is not after [today] is not after [today]. *)
Lemma date_min_not_after (today a b : date) :
  date_ltb today b = false -> date_ltb today (date_min a b) = false.
Proof.
  intros Hb. unfold date_min. destruct (date_ltb b a) eqn:E; [exact Hb|].
  apply date_ltb_false_lex. apply date_ltb_false_lex in Hb, E. lia.
Qed.

(** ** Recording a purchase *)

Lemma positive_merge_defined (q0 q : Z) :
  0 < q0 -> 0 < q -> int64 (q0 + q) -> merge_defined q0 q.
Proof. unfold merge_defined, int64. intros. lia. Qed.

Section Ledger.

Variable lib : library.

Lemma normalize_buy_date_malformed (today : date) (ds : string) :
  parse_date lib ds = None ->
  normalize_buy_date lib today ds = (today, strftime lib today).
Proof. intros H. unfold normalize_buy_date. now rewrite H. Qed.

Lemma normalize_buy_date_future (today d : date) (ds : string) :
  parse_date lib ds = Some d -> date_ltb today d = true ->
  normalize_buy_date lib today ds = (today, strftime lib today).
Proof. intros H Hd. unfold normalize_buy_date. now rewrite H, Hd. Qed.

Lemma normalize_buy_date_kept (today d : date) (ds : string) :
  parse_date lib ds = Some d -> date_ltb today d = false ->
  normalize_buy_date lib today ds = (d, ds).
Proof. intros H Hd. unfold normalize_buy_date. now rewrite H, Hd. Qed.

Lemma normalize_buy_date_not_after (today : date) (ds : string) :
  date_ltb today (fst (normalize_buy_date lib today ds)) = false.
Proof.
  unfold normalize_buy_date.
  destruct (parse_date lib ds) as [d|]; simpl.
  - destruct (date_ltb today d) eqn:E; simpl.
    + apply date_ltb_irrefl.
    + exact E.
  - apply date_ltb_irrefl.
Qed.

(** The merge branch (lines 81 to 92) as one equation. *)
Lemma record_purchase_merge (sym : string) (q : Z) (p : float)
    (ds note : string) (today : date) (db : database) (row : stock)
    (bd : date) (s : string) :
  select_stock sym (stocks db) = Some row ->
  merge_defined (quantity row) q ->
  normalize_buy_date lib today ds = (bd, s) ->
  record_purchase lib sym q p ds note today db =
  Ok (set_stocks db
        (update_stock sym (quantity row + q)
           (weighted_average (buy_price row) (quantity row) p q)
           (strftime lib
              (date_min
                 (match parse_date lib (buy_date row) with
                  | Some d => d
                  | None => bd
                  end) bd))
           note (stocks db))).
Proof.
  intros Hsel (H0 & Hq & Hn & Hnz) Hbd.
  unfold record_purchase. rewrite Hbd, Hsel.
  rewrite (mul_float_int_int64 _ _ H0). simpl bind.
  rewrite (mul_float_int_int64 _ _ Hq). simpl bind.
  rewrite (truediv_float_int_int64 _ _ Hn Hnz). reflexivity.
Qed.

(** The insert branch (lines 94 to 97) as one equation. *)
Lemma record_purchase_new (sym : string) (q : Z) (p : float)
    (ds note : string) (today : date) (db : database) (bd : date) (s : string) :
  select_stock sym (stocks db) = None ->
  normalize_buy_date lib today ds = (bd, s) ->
  record_purchase lib sym q p ds note today db =
  Ok (set_stocks db (stocks db ++ [mkstock sym q p s note])).
Proof.
  intros Hsel Hbd. unfold record_purchase. rewrite Hbd, Hsel.
  unfold insert_stock. simpl symbol.
  rewrite (select_none_existsb _ _ Hsel). reflexivity.
Qed.

(** A purchase that returns took one of the two branches, and touched
    neither the watchlist nor the alerts. *)
Lemma record_purchase_cases (sym : string) (q : Z) (p : float)
    (ds note : string) (today : date) (db db' : database) :
  record_purchase lib sym q p ds note today db = Ok db' ->
  watchlist db' = watchlist db /\ alerts db' = alerts db /\
  ((exists row bp d,
      select_stock sym (stocks db) = Some row /\
      stocks db' = update_stock sym (quantity row + q) bp d note (stocks db)) \/
   (exists s,
      select_stock sym (stocks db) = None /\
      stocks db' = stocks db ++ [mkstock sym q p s note])).
Proof.
  unfold record_purchase.
  destruct (normalize_buy_date lib today ds) as [bd s].
  destruct (select_stock sym (stocks db)) as [row|] eqn:Hsel.
  - destruct (Float.mul_float_int (buy_price row) (quantity row)) as [a|];
      simpl; [| discriminate].
    destruct (Float.mul_float_int p q) as [b|]; simpl; [| discriminate].
    destruct (Float.truediv_float_int (Float.add a b) (quantity row + q))
      as [bp|]; simpl; [| discriminate].
    intros H. injection H as <-. simpl.
    split; [reflexivity|]. split; [reflexivity|]. left. eauto.
  - unfold insert_stock. simpl symbol.
    rewrite (select_none_existsb _ _ Hsel). simpl.
    intros H. injection H as <-. simpl.
    split; [reflexivity|]. split; [reflexivity|]. right. eauto.
Qed.

Lemma update_stock_symbols (sym : string) (q : Z) (bp : float) (d n : string)
    (rows : list stock) :
  map symbol (update_stock sym q bp d n rows) = map symbol rows.
Proof.
  unfold update_stock. rewrite map_map. apply map_ext.
  intros r. destruct (String.eqb (symbol r) sym); reflexivity.
Qed.

Lemma select_none_not_in (sym : string) (rows : list stock) :
  select_stock sym rows = None -> ~ In sym (map symbol rows).
Proof.
  unfold select_stock. intros Hn Hin.
  apply in_map_iff in Hin. destruct Hin as (r & Hr & Hin).
  apply (find_none _ _ Hn) in Hin. rewrite Hr, String.eqb_refl in Hin.
  discriminate.
Qed.

(** Purchases keep one row per symbol. *)
Lemma record_purchase_unique_symbols (sym : string) (q : Z) (p : float)
    (ds note : string) (today : date) (db db' : database) :
  unique_symbols db ->
  record_purchase lib sym q p ds note today db = Ok db' ->
  unique_symbols db'.
Proof.
  unfold unique_symbols. intros Hu Hrun.
  destruct (record_purchase_cases _ _ _ _ _ _ _ _ Hrun)
    as (_ & _ & [(row & bp & d & Hsel & ->) | (s & Hsel & ->)]).
  - now rewrite update_stock_symbols.
  - rewrite map_app. simpl.
    apply NoDup_app; [exact Hu | repeat constructor; intros [] |].
    intros x Hx [<-|[]]. exact (select_none_not_in _ _ Hsel Hx).
Qed.

(** Purchases of positive quantities keep every stored quantity positive. *)
Lemma record_purchase_positive_quantities (sym : string) (q : Z) (p : float)
    (ds note : string) (today : date) (db db' : database) :
  positive_quantities db -> 0 < q ->
  record_purchase lib sym q p ds note today db = Ok db' ->
  positive_quantities db'.
Proof.
  unfold positive_quantities. intros Hpos Hq Hrun.
  destruct (record_purchase_cases _ _ _ _ _ _ _ _ Hrun)
    as (_ & _ & [(row & bp & d & Hsel & ->) | (s & Hsel & ->)]).
  - assert (Hrow : 0 < quantity row).
    { rewrite Forall_forall in Hpos. apply Hpos.
      unfold select_stock in Hsel. apply find_some in Hsel. apply Hsel. }
    unfold update_stock. apply Forall_map.
    rewrite Forall_forall in *. intros r Hr.
    destruct (String.eqb (symbol r) sym); simpl; [lia | apply Hpos; exact Hr].
  - apply Forall_app. split; [exact Hpos|]. repeat constructor. exact Hq.
Qed.

End Ledger.

(** C1. Recording a purchase of a positive quantity [q] at price [p] on a
    symbol whose position holds quantity [q0] at average cost [c0]
    succeeds and leaves the position with quantity [q0 + q] and average
    cost [(c0 * q0 + p * q) / (q0 + q)], computed with float
    multiplication, addition and true division. *)
Theorem weighted_average_merge (lib : library) (sym : string) (q : Z)
    (p : float) (ds note : string) (today : date) (db : database) (row : stock) :
  select_stock sym (stocks db) = Some row ->
  0 < quantity row -> 0 < q -> int64 (quantity row + q) ->
  exists db' row',
    record_purchase lib sym q p ds note today db = Ok db' /\
    select_stock sym (stocks db') = Some row' /\
    quantity row' = quantity row + q /\
    buy_price row' =
      Float.div
        (Float.add (Float.mul (buy_price row) (Float.of_Z (quantity row)))
                   (Float.mul p (Float.of_Z q)))
        (Float.of_Z (quantity row + q)).
Proof.
  intros Hsel H0 Hq Hn.
  destruct (normalize_buy_date lib today ds) as [bd s] eqn:Hbd.
  pose proof (record_purchase_merge lib sym q p ds note today db row bd s Hsel
                (positive_merge_defined _ _ H0 Hq Hn) Hbd) as Hrun.
  eexists. eexists. split; [exact Hrun|]. simpl stocks.
  split; [eapply select_update_stock; exact Hsel|]. split; reflexivity.
Qed.

(** The example of the specification: 10 at 100 and then 10 at 200 on one
    symbol give quantity 20 and average cost 150.0. *)
Lemma weighted_average_merge_witness :
  exists db1 db2 row,
    record_purchase (Demo.lib []) "ACME" 10 (Float.of_Z 100) "2024-03-01" ""
      (mkdate 2025 6 15) init_db = Ok db1 /\
    record_purchase (Demo.lib []) "ACME" 10 (Float.of_Z 200) "2024-09-01" ""
      (mkdate 2025 6 15) db1 = Ok db2 /\
    select_stock "ACME" (stocks db2) = Some row /\
    quantity row = 20 /\ buy_price row = Float.of_Z 150.
Proof.
  eexists. 
  destruct (weighted_average_merge (Demo.lib []) "ACME" 10 (Float.of_Z 200)
              "2024-09-01" "" (mkdate 2025 6 15)
              (mkdb [mkstock "ACME" 10 (Float.of_Z 100) "2024-03-01" ""] [] [])
              (mkstock "ACME" 10 (Float.of_Z 100) "2024-03-01" ""))
    as (db2 & row & Hrun & Hsel & Hq & Hp);
    [reflexivity | simpl; lia | lia | unfold int64; simpl; lia |].
  exists db2, row.
  split; [vm_compute; reflexivity|].
  split; [exact Hrun|]. split; [exact Hsel|].
  split; [exact Hq|]. rewrite Hp. vm_compute. reflexivity.
Defined.

(** Division is float division, not integer division: one unit at 1 and
    then one unit at 2 average to 1.5. *)
Example weighted_average_is_not_integer :
  weighted_average (Float.of_Z 1) 1 (Float.of_Z 2) 1
  = S754_finite false 6755399441055744 (-52)
  /\ Float.mul (S754_finite false 6755399441055744 (-52)) (Float.of_Z 2)
     = Float.of_Z 3.
Proof. split; vm_compute; reflexivity. Qed.

(** C6. When a purchase merges into a position whose stored date parses
    to [d0], the date written back is the text of [min(d0, d)], where [d]
    is the purchase date after its fallback to today: one of the two
    dates, and after neither. *)
Theorem earliest_date_retention (lib : library) (sym : string) (q : Z)
    (p : float) (ds note : string) (today : date) (db : database) (row : stock)
    (d0 d : date) (s : string) :
  select_stock sym (stocks db) = Some row ->
  merge_defined (quantity row) q ->
  parse_date lib (buy_date row) = Some d0 ->
  normalize_buy_date lib today ds = (d, s) ->
  exists db' row',
    record_purchase lib sym q p ds note today db = Ok db' /\
    select_stock sym (stocks db') = Some row' /\
    buy_date row' = strftime lib (date_min d0 d) /\
    (date_min d0 d = d0 \/ date_min d0 d = d) /\
    date_ltb d0 (date_min d0 d) = false /\
    date_ltb d (date_min d0 d) = false.
Proof.
  intros Hsel Hm Hold Hbd.
  pose proof (record_purchase_merge lib sym q p ds note today db row d s
                Hsel Hm Hbd) as Hrun.
  rewrite Hold in Hrun.
  eexists. eexists. split; [exact Hrun|]. simpl stocks.
  split; [eapply select_update_stock; exact Hsel|].
  split; [reflexivity|]. split; [apply date_min_cases|].
  apply date_min_lower.
Qed.

(** The example of the specification: a purchase dated 2020-01-01 merged
    into a position dated 2021-01-01 leaves the date 2020-01-01. *)
Lemma earliest_date_retention_witness :
  exists db' row',
    record_purchase (Demo.lib []) "ACME" 5 (Float.of_Z 30) "2020-01-01" ""
      (mkdate 2025 6 15)
      (mkdb [mkstock "ACME" 5 (Float.of_Z 20) "2021-01-01" ""] [] []) = Ok db' /\
    select_stock "ACME" (stocks db') = Some row' /\
    buy_date row' = "2020-01-01".
Proof.
  destruct (earliest_date_retention (Demo.lib []) "ACME" 5 (Float.of_Z 30)
              "2020-01-01" "" (mkdate 2025 6 15)
              (mkdb [mkstock "ACME" 5 (Float.of_Z 20) "2021-01-01" ""] [] [])
              (mkstock "ACME" 5 (Float.of_Z 20) "2021-01-01" "")
              (mkdate 2021 1 1) (mkdate 2020 1 1) "2020-01-01")
    as (db' & row' & Hrun & Hsel & Hd & _);
    [reflexivity | unfold merge_defined, int64; simpl; lia
    | reflexivity | reflexivity |].
  exists db', row'. split; [exact Hrun|]. split; [exact Hsel|].
  rewrite Hd. reflexivity.
Defined.

(** C10. When a purchase merges into a position whose stored date text
    does not parse, nothing is raised on that account and the date
    written back is the purchase date after its fallback to today. *)
Theorem unparsable_stored_date (lib : library) (sym : string) (q : Z)
    (p : float) (ds note : string) (today : date) (db : database) (row : stock)
    (d : date) (s : string) :
  select_stock sym (stocks db) = Some row ->
  merge_defined (quantity row) q ->
  parse_date lib (buy_date row) = None ->
  normalize_buy_date lib today ds = (d, s) ->
  exists db' row',
    record_purchase lib sym q p ds note today db = Ok db' /\
    select_stock sym (stocks db') = Some row' /\
    buy_date row' = strftime lib d.
Proof.
  intros Hsel Hm Hold Hbd.
  pose proof (record_purchase_merge lib sym q p ds note today db row d s
                Hsel Hm Hbd) as Hrun.
  rewrite Hold, date_min_same in Hrun.
  eexists. eexists. split; [exact Hrun|]. simpl stocks.
  split; [eapply select_update_stock; exact Hsel|]. reflexivity.
Qed.

Lemma unparsable_stored_date_witness :
  exists db' row',
    record_purchase (Demo.lib []) "ACME" 5 (Float.of_Z 30) "2030-01-01" ""
      (mkdate 2025 6 15)
      (mkdb [mkstock "ACME" 5 (Float.of_Z 20) "last spring" ""] [] []) = Ok db' /\
    select_stock "ACME" (stocks db') = Some row' /\
    buy_date row' = "2025-06-15".
Proof.
  destruct (unparsable_stored_date (Demo.lib []) "ACME" 5 (Float.of_Z 30)
              "2030-01-01" "" (mkdate 2025 6 15)
              (mkdb [mkstock "ACME" 5 (Float.of_Z 20) "last spring" ""] [] [])
              (mkstock "ACME" 5 (Float.of_Z 20) "last spring" "")
              (mkdate 2025 6 15) "2025-06-15")
    as (db' & row' & Hrun & Hsel & Hd);
    [reflexivity | unfold merge_defined, int64; simpl; lia
    | reflexivity | reflexivity |].
  exists db', row'. split; [exact Hrun|]. split; [exact Hsel|].
  rewrite Hd. reflexivity.
Defined.

(** C7. The purchase date [d] and its text [s] after lines 69 to 73, in
    terms of what [strptime] answers on the supplied text: when it raises,
    or answers a date strictly after today, the date is today and the text
    is today's; when it answers a date not after today, that date is kept
    with its text as supplied.  A new position of a 64-bit quantity stores
    [s]; a merged position whose stored price is a number stores the text of a date that is not
    after today. *)
Theorem purchase_date_clamp (lib : library) (sym : string) (q : Z)
    (p : float) (ds note : string) (today : date) (db : database)
    (d : date) (s : string) :
  normalize_buy_date lib today ds = (d, s) ->
  (forall e, strptime lib ds = Raise e -> d = today /\ s = strftime lib today) /\
  (forall d1, strptime lib ds = Ok d1 -> date_ltb today d1 = true ->
     d = today /\ s = strftime lib today) /\
  (forall d1, strptime lib ds = Ok d1 -> date_ltb today d1 = false ->
     d = d1 /\ s = ds) /\
  date_ltb today d = false /\
  (select_stock sym (stocks db) = None -> int64 q ->
   exists db' row',
     record_purchase lib sym q p ds note today db = Ok db' /\
     select_stock sym (stocks db') = Some row' /\
     buy_date row' = s) /\
  (forall row, select_stock sym (stocks db) = Some row ->
   merge_defined (quantity row) q -> buy_price row <> S754_nan ->
   exists db' row' m,
     record_purchase lib sym q p ds note today db = Ok db' /\
     select_stock sym (stocks db') = Some row' /\
     buy_date row' = strftime lib m /\
     m = date_min (match strptime lib (buy_date row) with
                   | Ok d0 => d0
                   | Raise _ => d
                   end) d /\
     date_ltb today m = false).
Proof.
  intros Hbd.
  assert (Hna : date_ltb today d = false).
  { pose proof (normalize_buy_date_not_after lib today ds) as H.
    now rewrite Hbd in H. }
  split; [| split; [| split; [| split; [exact Hna | split]]]].
  - intros e He.
    assert (Hp : parse_date lib ds = None) by (unfold parse_date; now rewrite He).
    rewrite (normalize_buy_date_malformed lib today ds Hp) in Hbd.
    split; congruence.
  - intros d1 Hs Hlt.
    assert (Hp : parse_date lib ds = Some d1)
      by (unfold parse_date; now rewrite Hs).
    rewrite (normalize_buy_date_future lib today d1 ds Hp Hlt) in Hbd.
    split; congruence.
  - intros d1 Hs Hlt.
    assert (Hp : parse_date lib ds = Some d1)
      by (unfold parse_date; now rewrite Hs).
    rewrite (normalize_buy_date_kept lib today d1 ds Hp Hlt) in Hbd.
    split; congruence.
  - intros Hsel _. eexists. eexists. split.
    + apply (record_purchase_new lib sym q p ds note today db d s Hsel Hbd).
    + simpl stocks. split; [apply select_app_new; [exact Hsel | reflexivity]|].
      reflexivity.
  - intros row Hsel Hm _. eexists. eexists. eexists. split.
    + apply (record_purchase_merge lib sym q p ds note today db row d s
               Hsel Hm Hbd).
    + simpl stocks. split; [eapply select_update_stock; exact Hsel|].
      split; [reflexivity|]. split.
      * unfold parse_date. destruct (strptime lib (buy_date row)); reflexivity.
      * apply date_min_not_after. exact Hna.
Qed.

(** The example of the specification, a purchase dated one year in the
    future and stored with today's date, and beside it a purchase dated
    before today, stored with its text as supplied. *)
Lemma purchase_date_clamp_witness :
  (exists db' row',
     record_purchase (Demo.lib []) "ACME" 5 (Float.of_Z 30) "2026-06-15" ""
       (mkdate 2025 6 15) init_db = Ok db' /\
     select_stock "ACME" (stocks db') = Some row' /\
     buy_date row' = "2025-06-15") /\
  (exists db' row',
     record_purchase (Demo.lib []) "ACME" 5 (Float.of_Z 30) "2024-2-29" ""
       (mkdate 2025 6 15) init_db = Ok db' /\
     select_stock "ACME" (stocks db') = Some row' /\
     buy_date row' = "2024-2-29").
Proof.
  split.
  - destruct (normalize_buy_date (Demo.lib []) (mkdate 2025 6 15) "2026-06-15")
      as [d s] eqn:Hbd.
    destruct (purchase_date_clamp (Demo.lib []) "ACME" 5 (Float.of_Z 30)
                "2026-06-15" "" (mkdate 2025 6 15) init_db d s Hbd)
      as (_ & Hfuture & _ & _ & Hnew & _).
    destruct (Hfuture (mkdate 2026 6 15) eq_refl eq_refl) as [_ Hs].
    destruct (Hnew eq_refl) as (db' & row' & Hrun & Hsel & Hdate).
    + unfold int64. lia.
    + exists db', row'. split; [exact Hrun|]. split; [exact Hsel|].
      rewrite Hdate, Hs. reflexivity.
  - destruct (normalize_buy_date (Demo.lib []) (mkdate 2025 6 15) "2024-2-29")
      as [d s] eqn:Hbd.
    destruct (purchase_date_clamp (Demo.lib []) "ACME" 5 (Float.of_Z 30)
                "2024-2-29" "" (mkdate 2025 6 15) init_db d s Hbd)
      as (_ & _ & Hkept & _ & Hnew & _).
    destruct (Hkept (mkdate 2024 2 29) eq_refl eq_refl) as [_ Hs].
    destruct (Hnew eq_refl) as (db' & row' & Hrun & Hsel & Hdate).
    + unfold int64. lia.
    + exists db', row'. split; [exact Hrun|]. split; [exact Hsel|].
      rewrite Hdate, Hs. reflexivity.
Defined.

(** ** The valuation pass *)

Section Valuation.

Variable lib : library.
Variable today : date.

Lemma valuate_row_int64 (r : stock) :
  int64 (quantity r) ->
  valuate_row lib today r =
  Ok (mkvaluation r
        (get_live_price lib (symbol r))
        (match get_live_price lib (symbol r) with None => true | Some _ => false end)
        (match get_live_price lib (symbol r) with Some p => p | None => Float.zero end)
        (Float.mul (Float.of_Z (quantity r)) (buy_price r))
        (Float.mul (Float.of_Z (quantity r))
           (match get_live_price lib (symbol r) with
            | Some p => p
            | None => Float.zero
            end))
        (Float.sub
           (Float.mul (Float.of_Z (quantity r))
              (match get_live_price lib (symbol r) with
               | Some p => p
               | None => Float.zero
               end))
           (Float.mul (Float.of_Z (quantity r)) (buy_price r)))
        (parse_date lib (buy_date r))
        (holding_type_of today (parse_date lib (buy_date r)))).
Proof.
  intros H. unfold valuate_row.
  rewrite !(mul_int_float_int64 _ _ H). reflexivity.
Qed.

Lemma valuate_row_valuation_of (r : stock) :
  int64 (quantity r) ->
  exists v, valuate_row lib today r = Ok v /\ valuation_of lib today r v.
Proof.
  intros H. eexists. split; [apply valuate_row_int64; exact H|].
  unfold valuation_of. simpl. repeat split; reflexivity.
Qed.

Lemma valuate_all_total (rows : list stock) :
  int64_rows rows ->
  exists vs, valuate_all lib today rows = Ok vs /\ Forall2 (valuation_of lib today) rows vs.
Proof.
  induction 1 as [|r rows Hr _ IH]; simpl.
  - exists []. split; [reflexivity | constructor].
  - destruct (valuate_row_valuation_of r Hr) as (v & Hv & Hof).
    destruct IH as (vs & Hvs & Hall).
    exists (v :: vs). rewrite Hv, Hvs. split; [reflexivity|].
    constructor; assumption.
Qed.

Lemma in_class_holding_type (v : valuation) (r : stock) :
  valuation_of lib today r v ->
  (in_class "Long" v, in_class "Short" v) =
  match v_parsed v with
  | Some d => if 365 <? days_between today d then (true, false) else (false, true)
  | None => (false, false)
  end.
Proof.
  intros (_ & _ & _ & _ & _ & _ & _ & _ & Hh). unfold in_class. rewrite Hh.
  destruct (v_parsed v) as [d|]; simpl; [|reflexivity].
  destruct (365 <? days_between today d); reflexivity.
Qed.

Lemma portfolio_step_totals_after (st : totals) (r : stock) (v : valuation) :
  valuate_row lib today r = Ok v -> valuation_of lib today r v ->
  portfolio_step lib today st r = Ok (totals_after lib st [v]).
Proof.
  intros Hv Hof. unfold portfolio_step. rewrite Hv. simpl bind.
  pose proof (in_class_holding_type v r Hof) as Hc.
  unfold totals_after. simpl map. simpl filter.
  destruct (v_parsed v) as [d|].
  - destruct (365 <? days_between today d); injection Hc as HL HS;
      rewrite HL, HS; reflexivity.
  - injection Hc as HL HS. rewrite HL, HS. reflexivity.
Qed.

Lemma totals_after_cons (st : totals) (v : valuation) (vs : list valuation) :
  totals_after lib (totals_after lib st [v]) vs = totals_after lib st (v :: vs).
Proof.
  unfold totals_after. simpl portfolio. simpl total_invested.
  simpl total_value. simpl total_long_pl. simpl total_short_pl.
  simpl map. simpl filter. rewrite <- app_assoc. simpl app.
  destruct (in_class "Long" v), (in_class "Short" v); reflexivity.
Qed.

(** The loop of lines 126 to 161 over 64-bit quantities. *)
Lemma for_each_portfolio_step (rows : list stock) (st : totals) :
  int64_rows rows ->
  exists vs,
    valuate_all lib today rows = Ok vs /\
    Forall2 (valuation_of lib today) rows vs /\
    for_each (portfolio_step lib today) rows st = Ok (totals_after lib st vs).
Proof.
  intros Hrows. revert st.
  induction Hrows as [|r rows Hr _ IH]; intros st.
  - exists []. split; [reflexivity|]. split; [constructor|].
    simpl. unfold totals_after. simpl. rewrite app_nil_r.
    destruct st; reflexivity.
  - destruct (valuate_row_valuation_of r Hr) as (v & Hv & Hof).
    destruct (IH (totals_after lib st [v])) as (vs & Hvs & Hall & Hrun).
    exists (v :: vs). simpl. rewrite Hv. simpl bind. rewrite Hvs. simpl bind.
    split; [reflexivity|]. split; [constructor; assumption|].
    rewrite (portfolio_step_totals_after st r v Hv Hof). simpl bind.
    rewrite Hrun. rewrite totals_after_cons. reflexivity.
Qed.

(** Lines 118 to 163 over 64-bit quantities. *)
Lemma portfolio_calculations_spec (rows : list stock) :
  int64_rows rows ->
  exists vs,
    valuate_all lib today rows = Ok vs /\
    Forall2 (valuation_of lib today) rows vs /\
    portfolio_calculations lib today rows =
    Ok (mkcalculations (totals_after lib (totals_init) vs)
          (Float.sub (Float.sum (map v_current vs))
                     (Float.sum (map v_invested vs)))).
Proof.
  intros Hrows.
  destruct (for_each_portfolio_step rows totals_init Hrows)
    as (vs & Hvs & Hall & Hrun).
  exists vs. split; [exact Hvs|]. split; [exact Hall|].
  unfold portfolio_calculations. rewrite Hrun. reflexivity.
Qed.

End Valuation.

Lemma valuation_of_rows (lib : library) (today : date) (rows : list stock)
    (vs : list valuation) :
  Forall2 (valuation_of lib today) rows vs ->
  map v_row vs = rows /\
  (forall v, In v vs -> valuation_of lib today (v_row v) v).
Proof.
  induction 1 as [|r v rows vs Hof _ IH]; simpl.
  - split; [reflexivity | intros v []].
  - destruct IH as [Hmap Hin]. split.
    + destruct Hof as [Hrow _]. now rewrite Hrow, Hmap.
    + intros v' [<-|Hv'].
      * destruct Hof as [Hrow Hrest]. rewrite Hrow. split; assumption.
      * apply Hin. exact Hv'.
Qed.

(** C2. In a valuation pass, a position whose stored date parses to [d]
    is classified "Long" when [(today - d).days > 365] and "Short"
    otherwise, so 365 days is "Short" and 366 days is "Long"; a position
    whose date does not parse is classified "N/A".  The long and short
    totals add the profit and loss of the positions of their class only,
    while [total_invested] and [total_value] add every position. *)
Theorem holding_classification (lib : library) (today : date)
    (rows : list stock) :
  int64_rows rows ->
  exists c vs,
    portfolio_calculations lib today rows = Ok c /\
    valuate_all lib today rows = Ok vs /\
    map v_row vs = rows /\
    portfolio (calc_totals c) = map (portfolio_entry lib) vs /\
    (forall v, In v vs ->
       p_holding_type (portfolio_entry lib v) = v_holding_type v /\
       (forall d, parse_date lib (buy_date (v_row v)) = Some d ->
          (365 < days_between today d -> v_holding_type v = "Long") /\
          (days_between today d <= 365 -> v_holding_type v = "Short") /\
          (days_between today d = 365 -> v_holding_type v = "Short") /\
          (days_between today d = 366 -> v_holding_type v = "Long")) /\
       (parse_date lib (buy_date (v_row v)) = None ->
          v_holding_type v = "N/A" /\
          in_class "Long" v = false /\ in_class "Short" v = false)) /\
    total_long_pl (calc_totals c)
    = Float.sum (map v_pl (filter (in_class "Long") vs)) /\
    total_short_pl (calc_totals c)
    = Float.sum (map v_pl (filter (in_class "Short") vs)) /\
    total_invested (calc_totals c) = Float.sum (map v_invested vs) /\
    total_value (calc_totals c) = Float.sum (map v_current vs).
Proof.
  intros Hrows.
  destruct (portfolio_calculations_spec lib today rows Hrows)
    as (vs & Hvs & Hall & Hrun).
  destruct (valuation_of_rows lib today rows vs Hall) as [Hmap Hin].
  eexists. exists vs. split; [exact Hrun|]. split; [exact Hvs|].
  split; [exact Hmap|]. split; [reflexivity|].
  split; [| repeat split; reflexivity].
  intros v Hv. split; [reflexivity|].
  destruct (Hin v Hv) as (_ & _ & _ & _ & _ & _ & _ & Hp & Hh).
  split.
  - intros d Hd. rewrite Hh, Hp, Hd. simpl.
    repeat split; intros Hdays.
    + apply Z.ltb_lt in Hdays. now rewrite Hdays.
    + apply Z.ltb_ge in Hdays. now rewrite Hdays.
    + now rewrite Hdays.
    + now rewrite Hdays.
  - intros Hd. unfold in_class. rewrite Hh, Hp, Hd. simpl. repeat split.
Qed.

(** Three positions held 365 days, 366 days and since an unreadable date:
    "Short", "Long" and "N/A"; the third adds to neither class total. *)
Lemma holding_classification_witness :
  exists c,
    portfolio_calculations (Demo.lib [("A", Float.of_Z 12); ("B", Float.of_Z 7);
                                      ("C", Float.of_Z 9)])
      (mkdate 2025 6 15)
      [mkstock "A" 1 (Float.of_Z 10) "2024-06-15" "";
       mkstock "B" 1 (Float.of_Z 5) "2024-06-14" "";
       mkstock "C" 1 (Float.of_Z 5) "long ago" ""] = Ok c /\
    map p_holding_type (portfolio (calc_totals c)) = ["Short"; "Long"; "N/A"] /\
    total_short_pl (calc_totals c) = Float.of_Z 2 /\
    total_long_pl (calc_totals c) = Float.of_Z 2 /\
    total_invested (calc_totals c) = Float.of_Z 20 /\
    total_value (calc_totals c) = Float.of_Z 28.
Proof.
  destruct (holding_classification
              (Demo.lib [("A", Float.of_Z 12); ("B", Float.of_Z 7);
                         ("C", Float.of_Z 9)])
              (mkdate 2025 6 15)
              [mkstock "A" 1 (Float.of_Z 10) "2024-06-15" "";
               mkstock "B" 1 (Float.of_Z 5) "2024-06-14" "";
               mkstock "C" 1 (Float.of_Z 5) "long ago" ""])
    as (c & vs & Hrun & _).
  - repeat constructor; simpl; lia.
  - exists c. split; [exact Hrun|].
    vm_compute in Hrun. injection Hrun as <-.
    repeat split; vm_compute; reflexivity.
Defined.

Lemma eqb_zero (s : bool) : Float.eqb (S754_zero s) Float.zero = true.
Proof. reflexivity. Qed.

(** C3. A valuation pass over stored rows always returns, with one
    snapshot per row in row order, whatever the price lookups return.
    For a position whose lookup is unavailable the snapshot is flagged
    invalid, its current value is a zero, its profit and loss is that zero
    minus the invested amount, and both still enter [total_invested] and
    [total_value], which add every row. *)
Theorem price_unavailable_degradation (lib : library) (today : date)
    (rows : list stock) :
  int64_rows rows ->
  exists c vs,
    portfolio_calculations lib today rows = Ok c /\
    valuate_all lib today rows = Ok vs /\
    map v_row vs = rows /\
    portfolio (calc_totals c) = map (portfolio_entry lib) vs /\
    List.length (portfolio (calc_totals c)) = List.length rows /\
    total_invested (calc_totals c) = Float.sum (map v_invested vs) /\
    total_value (calc_totals c) = Float.sum (map v_current vs) /\
    (forall v, In v vs ->
       get_live_price lib (symbol (v_row v)) = None ->
       v_invalid v = true /\
       p_invalid (portfolio_entry lib v) = true /\
       v_invested v
       = Float.mul (Float.of_Z (quantity (v_row v))) (buy_price (v_row v)) /\
       v_current v = S754_zero (quantity (v_row v) <? 0) /\
       Float.eqb (v_current v) Float.zero = true /\
       v_pl v = Float.sub (v_current v) (v_invested v) /\
       (0 <= quantity (v_row v) ->
        v_current v = Float.zero /\
        v_pl v = Float.sub Float.zero (v_invested v)) /\
       p_current (portfolio_entry lib v) = round2 lib (v_current v) /\
       p_profit (portfolio_entry lib v) = round2 lib (v_pl v)) /\
    ((forall sym, get_live_price lib sym = None) ->
     Forall (fun e => p_invalid e = true) (portfolio (calc_totals c))).
Proof.
  intros Hrows.
  destruct (portfolio_calculations_spec lib today rows Hrows)
    as (vs & Hvs & Hall & Hrun).
  destruct (valuation_of_rows lib today rows vs Hall) as [Hmap Hin].
  assert (Hone : forall v, In v vs ->
            get_live_price lib (symbol (v_row v)) = None ->
            v_invalid v = true /\
            v_current v = S754_zero (quantity (v_row v) <? 0)).
  { intros v Hv Hnone.
    destruct (Hin v Hv) as (_ & Hlp & Hinv & Hlv & _ & Hcur & _).
    rewrite Hnone in Hlp. rewrite Hlp in Hinv, Hlv.
    split; [exact Hinv|]. rewrite Hcur, Hlv. apply mul_of_Z_zero.
    unfold int64_rows in Hrows. rewrite Forall_forall in Hrows.
    apply Hrows. rewrite <- Hmap.
    apply in_map. exact Hv. }
  eexists. exists vs. split; [exact Hrun|]. split; [exact Hvs|].
  split; [exact Hmap|]. split; [reflexivity|].
  split; [simpl; now rewrite length_map, <- Hmap, length_map|].
  split; [reflexivity|]. split; [reflexivity|]. split.
  - intros v Hv Hnone. destruct (Hone v Hv Hnone) as [Hinv Hcur].
    destruct (Hin v Hv) as (_ & _ & _ & _ & Hinvd & _ & Hpl & _).
    split; [exact Hinv|]. split; [exact Hinv|]. split; [exact Hinvd|].
    split; [exact Hcur|]. split; [rewrite Hcur; apply eqb_zero|].
    split; [exact Hpl|]. split; [| split; reflexivity].
    intros Hq. apply Z.ltb_ge in Hq. rewrite Hq in Hcur.
    split; [exact Hcur|]. now rewrite Hpl, Hcur.
  - intros Hnone. simpl. apply Forall_forall. intros e He.
    apply in_map_iff in He. destruct He as (v & <- & Hv).
    apply (Hone v Hv). apply Hnone.
Qed.

(** The example of the specification: 5 units at average cost 10 with no
    quote have current value 0, profit and loss -50, and count 50 towards
    [total_invested] and 0 towards [total_value]. *)
Lemma price_unavailable_degradation_witness :
  exists c v,
    portfolio_calculations (Demo.lib []) (mkdate 2025 6 15)
      [mkstock "ACME" 5 (Float.of_Z 10) "2025-01-01" ""] = Ok c /\
    valuate_all (Demo.lib []) (mkdate 2025 6 15)
      [mkstock "ACME" 5 (Float.of_Z 10) "2025-01-01" ""] = Ok [v] /\
    v_invalid v = true /\
    v_current v = Float.zero /\
    v_pl v = Float.of_Z (-50) /\
    total_invested (calc_totals c) = Float.of_Z 50 /\
    total_value (calc_totals c) = Float.zero /\
    total_profit c = Float.of_Z (-50).
Proof.
  destruct (price_unavailable_degradation (Demo.lib []) (mkdate 2025 6 15)
              [mkstock "ACME" 5 (Float.of_Z 10) "2025-01-01" ""])
    as (c & vs & Hrun & Hvs & _).
  - repeat constructor; simpl; lia.
  - exists c. vm_compute in Hvs. injection Hvs as <-.
    eexists. split; [exact Hrun|]. split; [vm_compute; reflexivity|].
    vm_compute in Hrun. injection Hrun as <-.
    repeat split; vm_compute; reflexivity.
Defined.

(** C4. The profit of the pass is the difference of the two totals,
    [total_value - total_invested], whenever the pass returns, and it
    returns on all stored rows; and there is a portfolio, holding one
    position of class "N/A" with a gain, whose long and short totals add up
    to strictly less than that profit. *)
Theorem aggregate_consistency :
  (forall lib today rows c,
     portfolio_calculations lib today rows = Ok c ->
     total_profit c
     = Float.sub (total_value (calc_totals c)) (total_invested (calc_totals c))) /\
  (forall lib today rows,
     int64_rows rows ->
     exists c,
       portfolio_calculations lib today rows = Ok c /\
       total_profit c
       = Float.sub (total_value (calc_totals c)) (total_invested (calc_totals c))) /\
  (exists lib today rows c v,
     portfolio_calculations lib today rows = Ok c /\
     valuate_all lib today rows = Ok [v] /\
     v_holding_type v = "N/A" /\
     Float.eqb (v_pl v) Float.zero = false /\
     Float.ltb
       (Float.add (total_long_pl (calc_totals c)) (total_short_pl (calc_totals c)))
       (total_profit c) = true).
Proof.
  split; [| split].
  - intros lib today rows c H. unfold portfolio_calculations in H.
    destruct (for_each (portfolio_step lib today) rows (totals_init));
      simpl in H; [| discriminate].
    injection H as <-. reflexivity.
  - intros lib today rows Hrows.
    destruct (portfolio_calculations_spec lib today rows Hrows)
      as (vs & _ & _ & Hrun).
    eexists. split; [exact Hrun | reflexivity].
  - exists (Demo.lib [("ACME", Float.of_Z 20)]), (mkdate 2025 6 15),
      [mkstock "ACME" 1 (Float.of_Z 10) "unknown" ""].
    eexists. eexists. repeat split; vm_compute; reflexivity.
Qed.

(** One position of class "N/A" bought at 10 and quoted at 20: the profit
    is 10 and the class totals add up to 0. *)
Lemma aggregate_consistency_witness :
  exists c,
    portfolio_calculations (Demo.lib [("ACME", Float.of_Z 20)]) (mkdate 2025 6 15)
      [mkstock "ACME" 1 (Float.of_Z 10) "unknown" ""] = Ok c /\
    total_profit c
    = Float.sub (total_value (calc_totals c)) (total_invested (calc_totals c)) /\
    total_profit c = Float.of_Z 10 /\
    Float.add (total_long_pl (calc_totals c)) (total_short_pl (calc_totals c))
    = Float.zero.
Proof.
  destruct (proj1 (proj2 aggregate_consistency)
              (Demo.lib [("ACME", Float.of_Z 20)]) (mkdate 2025 6 15)
              [mkstock "ACME" 1 (Float.of_Z 10) "unknown" ""])
    as (c & Hrun & Hprofit).
  - repeat constructor; simpl; lia.
  - exists c. split; [exact Hrun|]. split; [exact Hprofit|].
    vm_compute in Hrun. injection Hrun as <-.
    split; vm_compute; reflexivity.
Defined.

(** ** Alerts *)

Lemma SFcompare_eq_sym (a b : float) :
  SFcompare a b = Some Eq -> SFcompare b a = Some Eq.
Proof.
  destruct a as [sa|sa| |sa ma ea], b as [sb|sb| |sb mb eb]; simpl;
    try discriminate; try reflexivity;
    try (destruct sa; discriminate); try (destruct sb; discriminate).
  - destruct sa, sb; try discriminate; reflexivity.
  - destruct sa, sb; try discriminate.
    + destruct (ea ?= eb) eqn:E; try discriminate.
      apply Z.compare_eq in E. subst eb. intros H.
      assert (Hm : ma = mb).
      { apply Pos.compare_eq. destruct (ma ?= mb)%positive eqn:C;
          rewrite Pos.compare_cont_spec, C in H; simpl in H;
          [reflexivity | discriminate | discriminate]. }
      subst mb. rewrite Z.compare_refl, Pos.compare_cont_refl. reflexivity.
    + destruct (ea ?= eb) eqn:E; try discriminate.
      apply Z.compare_eq in E. subst eb. intros H.
      assert (Hm : ma = mb).
      { apply Pos.compare_eq. destruct (ma ?= mb)%positive eqn:C;
          rewrite Pos.compare_cont_spec, C in H; simpl in H;
          [reflexivity | discriminate | discriminate]. }
      subst mb. rewrite Z.compare_refl, Pos.compare_cont_refl. reflexivity.
Qed.

(** [a == b] implies [a >= b]. *)
Lemma eqb_geb (a b : float) : Float.eqb a b = true -> Float.geb a b = true.
Proof.
  unfold Float.eqb, Float.geb, SFeqb, SFleb. intros H.
  destruct (SFcompare a b) as [[| |]|] eqn:E; try discriminate.
  now rewrite (SFcompare_eq_sym a b E).
Qed.

(** C5. For every alert row: when the price lookup is unavailable, [hit]
    is false whatever the target and the displayed price is the rounding
    of 0.0; when the lookup returns [p], [hit] is [p >= target], so a price
    equal to the target is a hit.  The page shows exactly these dicts. *)
Theorem alert_trigger (lib : library) (a : alert) :
  (get_live_price lib (alert_symbol a) = None ->
   a_hit (alert_entry lib a) = false /\
   a_live (alert_entry lib a) = round2 lib Float.zero) /\
  (forall p, get_live_price lib (alert_symbol a) = Some p ->
     a_hit (alert_entry lib a) = Float.geb p (target a) /\
     a_live (alert_entry lib a) = round2 lib p /\
     (Float.eqb p (target a) = true -> a_hit (alert_entry lib a) = true)) /\
  (forall today db ctx,
     dashboard_get lib today db = Ok ctx ->
     In a (alerts db) -> In (alert_entry lib a) (ctx_alerts ctx)).
Proof.
  split; [| split].
  - intros H. unfold alert_entry. rewrite H. split; reflexivity.
  - intros p H. unfold alert_entry. rewrite H. simpl.
    split; [reflexivity|]. split; [reflexivity|]. apply eqb_geb.
  - intros today db ctx H Ha. unfold dashboard_get in H.
    destruct (portfolio_calculations lib today (stocks db)); simpl in H;
      [| discriminate].
    injection H as <-. simpl. apply in_map. exact Ha.
Qed.

(** The example of the specification: with target 100, a quote of exactly
    100.0 is a hit and a missing quote is not. *)
Lemma alert_trigger_witness :
  a_hit (alert_entry (Demo.lib [("ACME", Float.of_Z 100)])
           (mkalert "ACME" (Float.of_Z 100))) = true /\
  a_hit (alert_entry (Demo.lib []) (mkalert "ACME" (Float.of_Z 100))) = false.
Proof.
  split.
  - apply (proj1 (proj2 (alert_trigger (Demo.lib [("ACME", Float.of_Z 100)])
                           (mkalert "ACME" (Float.of_Z 100))))
             (Float.of_Z 100) eq_refl).
    reflexivity.
  - apply (proj1 (alert_trigger (Demo.lib []) (mkalert "ACME" (Float.of_Z 100)))
             eq_refl).
Defined.

(** ** The watchlist *)

Lemma existsb_eqb_In (sym : string) (l : list string) :
  existsb (String.eqb sym) l = true <-> In sym l.
Proof.
  rewrite existsb_exists. split.
  - intros (x & Hx & E). apply String.eqb_eq in E. now subst x.
  - intros H. exists sym. split; [exact H | apply String.eqb_refl].
Qed.

Lemma insert_watch_present (sym : string) (l : list string) :
  In sym l -> insert_watch sym l = Raise IntegrityError.
Proof.
  intros H. unfold insert_watch.
  now rewrite (proj2 (existsb_eqb_In sym l) H).
Qed.

Lemma insert_watch_absent (sym : string) (l : list string) :
  ~ In sym l -> insert_watch sym l = Ok (l ++ [sym]).
Proof.
  intros H. unfold insert_watch.
  destruct (existsb (String.eqb sym) l) eqn:E; [| reflexivity].
  apply existsb_eqb_In in E. contradiction.
Qed.

Lemma add_watch_present (req : request) (db : database) (raw : string) :
  form_item (form req) "symbol" = Ok raw ->
  In (strip (upper raw)) (watchlist db) ->
  add_watch req db = Ok (db, Redirect "/").
Proof.
  intros Hf Hin. unfold add_watch. rewrite Hf. simpl bind.
  destruct (String.eqb (strip (upper raw)) ""); [reflexivity|].
  now rewrite (insert_watch_present _ _ Hin).
Qed.

Lemma add_watch_absent (req : request) (db : database) (raw : string) :
  form_item (form req) "symbol" = Ok raw ->
  strip (upper raw) <> "" ->
  ~ In (strip (upper raw)) (watchlist db) ->
  add_watch req db
  = Ok (set_watchlist db (watchlist db ++ [strip (upper raw)]), Redirect "/").
Proof.
  intros Hf Hne Hin. unfold add_watch. rewrite Hf. simpl bind.
  destruct (String.eqb (strip (upper raw)) "") eqn:E.
  - apply String.eqb_eq in E. contradiction.
  - now rewrite (insert_watch_absent _ _ Hin).
Qed.

(** Every request keeps the watchlist free of duplicates, as its [UNIQUE]
    constraint demands. *)
Lemma add_watch_unique (req : request) (db db' : database) (r : response) :
  NoDup (watchlist db) -> add_watch req db = Ok (db', r) ->
  NoDup (watchlist db').
Proof.
  intros Hnd. unfold add_watch.
  destruct (form_item (form req) "symbol") as [raw|]; simpl; [| discriminate].
  destruct (String.eqb (strip (upper raw)) "").
  - intros H. injection H as <- _. exact Hnd.
  - destruct (in_dec string_dec (strip (upper raw)) (watchlist db)) as [Hin|Hin].
    + rewrite (insert_watch_present _ _ Hin). intros H. injection H as <- _.
      exact Hnd.
    + rewrite (insert_watch_absent _ _ Hin). intros H. injection H as <- _.
      simpl. apply NoDup_app; [exact Hnd | repeat constructor; intros [] |].
      intros x Hx [<-|[]]. contradiction.
Qed.

(** C9. Adding a symbol to the watchlist twice raises nothing, and leaves
    exactly one entry for the symbol in its upper-case, stripped form;
    the second request changes nothing. *)
Theorem add_watch_idempotent (req : request) (db : database) (raw : string) :
  form_item (form req) "symbol" = Ok raw ->
  strip (upper raw) <> "" ->
  NoDup (watchlist db) ->
  exists db1,
    add_watch req db = Ok (db1, Redirect "/") /\
    add_watch req db1 = Ok (db1, Redirect "/") /\
    count_occ string_dec (watchlist db1) (strip (upper raw)) = 1%nat /\
    NoDup (watchlist db1) /\
    stocks db1 = stocks db /\ alerts db1 = alerts db.
Proof.
  intros Hf Hne Hnd.
  destruct (in_dec string_dec (strip (upper raw)) (watchlist db)) as [Hin|Hin].
  - exists db. rewrite (add_watch_present req db raw Hf Hin).
    repeat split; try assumption.
    apply NoDup_count_occ' with (decA := string_dec); assumption.
  - exists (set_watchlist db (watchlist db ++ [strip (upper raw)])).
    split; [apply add_watch_absent; assumption|].
    split; [apply (add_watch_present _ _ raw Hf); simpl;
            apply in_or_app; right; left; reflexivity|].
    simpl. split; [| split; [| split; reflexivity]].
    + rewrite count_occ_app. simpl.
      destruct (string_dec (strip (upper raw)) (strip (upper raw)));
        [| congruence].
      rewrite (proj1 (count_occ_not_In string_dec _ _) Hin). reflexivity.
    + apply NoDup_app; [exact Hnd | repeat constructor; intros [] |].
      intros x Hx [<-|[]]. contradiction.
Qed.

(** The example of the specification: the same symbol added twice to an
    empty watchlist leaves the one entry "AAPL". *)
Lemma add_watch_idempotent_witness :
  exists db1,
    add_watch (mkrequest POST [("symbol", " aapl ")]) init_db
    = Ok (db1, Redirect "/") /\
    add_watch (mkrequest POST [("symbol", " aapl ")]) db1
    = Ok (db1, Redirect "/") /\
    watchlist db1 = ["AAPL"].
Proof.
  destruct (add_watch_idempotent (mkrequest POST [("symbol", " aapl ")])
              init_db " aapl ")
    as (db1 & H1 & H2 & _).
  - reflexivity.
  - discriminate.
  - constructor.
  - exists db1. split; [exact H1|]. split; [exact H2|].
    vm_compute in H1. injection H1 as <-. reflexivity.
Defined.

(** ** Malformed input *)

Section Input.

Variable lib : library.

(** Replaces one successful read or conversion by its value. *)
Ltac read H := rewrite H; simpl bind.

(** Lines 63 to 67 on a form whose fields convert: the handler records the
    purchase under the upper-cased, stripped symbol. *)
Lemma dashboard_post_converted (f : form_data) (today : date) (db : database)
    (raw rq rp ds : string) (q : Z) (p : float) :
  form_item f "symbol" = Ok raw ->
  form_item f "quantity" = Ok rq -> int_of_str lib rq = Ok q ->
  form_item f "buy_price" = Ok rp -> float_of_str lib rp = Ok p ->
  form_item f "buy_date" = Ok ds ->
  dashboard lib (mkrequest POST f) today db =
  (db' <- record_purchase lib (strip (upper raw)) q p ds
            (strip (form_get f "notes" "")) today db ;;
   Ok (db', Redirect "/")).
Proof.
  intros Hs Hq Hi Hp Hf Hd. unfold dashboard, dashboard_post. simpl method.
  simpl form. read Hs. read Hq. read Hi. read Hp. read Hf. read Hd.
  reflexivity.
Qed.

(** A quantity or price that [int] or [float] rejects raises before the
    database is opened. *)
Lemma dashboard_post_bad_quantity (f : form_data) (today : date) (db : database)
    (raw rq : string) (e : exn) :
  form_item f "symbol" = Ok raw ->
  form_item f "quantity" = Ok rq ->
  int_of_str lib rq = Raise e ->
  dashboard lib (mkrequest POST f) today db = Raise e.
Proof.
  intros Hs Hq He. unfold dashboard, dashboard_post. simpl method.
  simpl form. read Hs. read Hq. rewrite He. reflexivity.
Qed.

Lemma dashboard_post_bad_price (f : form_data) (today : date) (db : database)
    (raw rq rp : string) (q : Z) (e : exn) :
  form_item f "symbol" = Ok raw ->
  form_item f "quantity" = Ok rq ->
  int_of_str lib rq = Ok q ->
  form_item f "buy_price" = Ok rp ->
  float_of_str lib rp = Raise e ->
  dashboard lib (mkrequest POST f) today db = Raise e.
Proof.
  intros Hs Hq Hi Hp He. unfold dashboard, dashboard_post. simpl method.
  simpl form. read Hs. read Hq. read Hi. read Hp. rewrite He. reflexivity.
Qed.

Lemma add_alert_bad_target (f : form_data) (db : database)
    (raw rt : string) (e : exn) :
  form_item f "symbol" = Ok raw ->
  form_item f "target" = Ok rt ->
  float_of_str lib rt = Raise e ->
  add_alert lib (mkrequest POST f) db = Raise e.
Proof.
  intros Hs Ht He. unfold add_alert. simpl form.
  read Hs. read Ht. rewrite He. reflexivity.
Qed.

End Input.

(** C8, at the input that breaks it.  A symbol that is empty once
    stripped is not rejected: the purchase handler inserts a position whose
    symbol is the empty string, and [add_alert] appends an alert for it,
    where [add_watch] returns without writing. *)
Theorem empty_symbol_is_written (lib : library) (today : date) (db : database)
    (f : form_data) (raw rq rp ds rt : string) (q : Z) (p t : float) :
  form_item f "symbol" = Ok raw ->
  strip (upper raw) = "" ->
  form_item f "quantity" = Ok rq -> int_of_str lib rq = Ok q ->
  form_item f "buy_price" = Ok rp -> float_of_str lib rp = Ok p ->
  form_item f "buy_date" = Ok ds ->
  form_item f "target" = Ok rt -> float_of_str lib rt = Ok t ->
  select_stock "" (stocks db) = None ->
  dashboard lib (mkrequest POST f) today db
  = Ok (set_stocks db
          (stocks db ++ [mkstock "" q p (snd (normalize_buy_date lib today ds))
                           (strip (form_get f "notes" ""))]),
        Redirect "/") /\
  add_alert lib (mkrequest POST f) db
  = Ok (set_alerts db (alerts db ++ [mkalert "" t]), Redirect "/") /\
  add_watch (mkrequest POST f) db = Ok (db, Redirect "/").
Proof.
  intros Hs He Hq Hi Hp Hf Hd Ht Hg Hsel.
  split; [| split].
  - destruct (normalize_buy_date lib today ds) as [bd s] eqn:Hbd.
    rewrite (dashboard_post_converted lib f today db raw rq rp ds q p
               Hs Hq Hi Hp Hf Hd).
    rewrite He.
    rewrite (record_purchase_new lib "" q p ds _ today db bd s Hsel Hbd).
    reflexivity.
  - unfold add_alert. simpl. rewrite Hs. simpl. rewrite Ht. simpl.
    rewrite Hg. simpl. rewrite He. reflexivity.
  - unfold add_watch. simpl. rewrite Hs. simpl. rewrite He. reflexivity.
Qed.

(** A form whose symbol is two spaces, posted to each of the three
    handlers on the empty database. *)
Lemma empty_symbol_is_written_witness :
  dashboard (Demo.lib [])
    (mkrequest POST [("symbol", "  "); ("quantity", "1"); ("buy_price", "1");
                     ("buy_date", ""); ("target", "100")])
    (mkdate 2025 6 15) init_db
  = Ok (mkdb [mkstock "" 1 (Float.of_Z 1) "2025-06-15" ""] [] [], Redirect "/") /\
  add_alert (Demo.lib [])
    (mkrequest POST [("symbol", "  "); ("quantity", "1"); ("buy_price", "1");
                     ("buy_date", ""); ("target", "100")])
    init_db
  = Ok (mkdb [] [] [mkalert "" (Float.of_Z 100)], Redirect "/").
Proof.
  destruct (empty_symbol_is_written (Demo.lib []) (mkdate 2025 6 15) init_db
              [("symbol", "  "); ("quantity", "1"); ("buy_price", "1");
               ("buy_date", ""); ("target", "100")]
              "  " "1" "1" "" "100" 1 (Float.of_Z 1) (Float.of_Z 100)
              eq_refl eq_refl eq_refl eq_refl eq_refl eq_refl eq_refl
              eq_refl eq_refl eq_refl)
    as (Hpost & Halert & _).
  split; [exact Hpost | exact Halert].
Defined.

(** * Further properties of the handlers *)

(** ** Symbol normalisation, [.upper().strip()] *)

Lemma upper_char_idempotent (c : ascii) : upper_char (upper_char c) = upper_char c.
Proof. destruct c as [[] [] [] [] [] [] [] []]; reflexivity. Qed.

Lemma is_space_upper_char (c : ascii) : is_space (upper_char c) = is_space c.
Proof. destruct c as [[] [] [] [] [] [] [] []]; reflexivity. Qed.

Lemma upper_idempotent (s : string) : upper (upper s) = upper s.
Proof.
  induction s as [|c s IH]; simpl; [reflexivity|].
  now rewrite upper_char_idempotent, IH.
Qed.

Lemma lstrip_upper (s : string) : lstrip (upper s) = upper (lstrip s).
Proof.
  induction s as [|c s IH]; simpl; [reflexivity|].
  rewrite is_space_upper_char. destruct (is_space c); [exact IH | reflexivity].
Qed.

Lemma rstrip_upper (s : string) : rstrip (upper s) = upper (rstrip s).
Proof.
  induction s as [|c s IH]; simpl; [reflexivity|].
  rewrite IH, is_space_upper_char.
  destruct (rstrip s) as [|c' r]; simpl.
  - destruct (is_space c); reflexivity.
  - reflexivity.
Qed.

Lemma strip_upper (s : string) : strip (upper s) = upper (strip s).
Proof. unfold strip. now rewrite lstrip_upper, rstrip_upper. Qed.

(** A string that does not start with white space. *)
Definition starts_clean (s : string) : Prop :=
  match s with
  | EmptyString => True
  | String c _ => is_space c = false
  end.

Lemma lstrip_starts_clean (s : string) : starts_clean (lstrip s).
Proof.
  induction s as [|c s IH]; simpl; [exact I|].
  destruct (is_space c) eqn:E; [exact IH | exact E].
Qed.

Lemma lstrip_clean (s : string) : starts_clean s -> lstrip s = s.
Proof. destruct s as [|c s]; simpl; [reflexivity|]. now intros ->. Qed.

Lemma rstrip_starts_clean (s : string) : starts_clean s -> starts_clean (rstrip s).
Proof.
  destruct s as [|c s]; simpl; [exact id|]. intros Hc.
  destruct (rstrip s); simpl; [rewrite Hc; exact Hc | exact Hc].
Qed.

Lemma rstrip_idempotent (s : string) : rstrip (rstrip s) = rstrip s.
Proof.
  induction s as [|c s IH]; simpl; [reflexivity|].
  destruct (rstrip s) as [|c' r] eqn:E.
  - destruct (is_space c) eqn:Hc; simpl; [reflexivity | now rewrite Hc].
  - change (rstrip (String c (String c' r)))
      with (match rstrip (String c' r) with
            | EmptyString =>
                if is_space c then EmptyString else String c EmptyString
            | String c0 r0 => String c (String c0 r0)
            end).
    now rewrite IH.
Qed.

Lemma strip_idempotent (s : string) : strip (strip s) = strip s.
Proof.
  unfold strip.
  rewrite (lstrip_clean (rstrip (lstrip s))).
  - apply rstrip_idempotent.
  - apply rstrip_starts_clean, lstrip_starts_clean.
Qed.

Lemma strip_upper_fixed (s : string) :
  strip (upper (strip (upper s))) = strip (upper s).
Proof.
  rewrite (strip_upper (strip (upper s))), strip_idempotent.
  now rewrite <- strip_upper, upper_idempotent.
Qed.

(** X1. Normalising a symbol twice is normalising it once: the text the
    handlers store is a fixed point of [.upper().strip()], so submitting a
    stored symbol again addresses the same row. *)
Theorem normalize_symbol_idempotent (s : string) :
  strip (upper (strip (upper s))) = strip (upper s) /\
  starts_clean (strip (upper s)) /\
  upper (strip (upper s)) = strip (upper s).
Proof.
  split; [| split].
  - apply strip_upper_fixed.
  - unfold strip. apply rstrip_starts_clean, lstrip_starts_clean.
  - now rewrite <- strip_upper, upper_idempotent.
Qed.

(** ** What a purchase leaves in the [stocks] table *)

Lemma select_update_other (sym sym' : string) (q : Z) (bp : float)
    (d n : string) (rows : list stock) :
  sym' <> sym ->
  select_stock sym' (update_stock sym q bp d n rows) = select_stock sym' rows.
Proof.
  intros Hne. unfold select_stock, update_stock.
  induction rows as [|r rows IH]; simpl; [reflexivity|].
  destruct (String.eqb (symbol r) sym) eqn:E; simpl.
  - apply String.eqb_eq in E. rewrite E.
    destruct (String.eqb sym sym') eqn:E'.
    + apply String.eqb_eq in E'. congruence.
    + exact IH.
  - destruct (String.eqb (symbol r) sym'); [reflexivity | exact IH].
Qed.

Lemma select_app_other (sym' : string) (rows : list stock) (r : stock) :
  symbol r <> sym' ->
  select_stock sym' (rows ++ [r]) = select_stock sym' rows.
Proof.
  intros Hne. unfold select_stock.
  induction rows as [|r0 rows IH]; simpl.
  - destruct (String.eqb (symbol r) sym') eqn:E; [| reflexivity].
    apply String.eqb_eq in E. contradiction.
  - destruct (String.eqb (symbol r0) sym'); [reflexivity | exact IH].
Qed.

Lemma update_stock_keeps (sym : string) (q : Z) (bp : float) (d n : string)
    (rows : list stock) (r : stock) :
  In r rows -> symbol r <> sym -> In r (update_stock sym q bp d n rows).
Proof.
  intros Hin Hne. unfold update_stock. apply in_map_iff. exists r.
  split; [| exact Hin].
  destruct (String.eqb (symbol r) sym) eqn:E; [| reflexivity].
  apply String.eqb_eq in E. contradiction.
Qed.

(** X2. Insert and lookup round trip: after any purchase that returns,
    looking the symbol up gives a row that carries the symbol, the notes just
    supplied (last write wins, blank included) and the old quantity plus
    the purchased one, or the purchased quantity when the symbol was new,
    with the purchase price when that price is a float the column gives
    back as written. *)
Theorem purchase_then_lookup (lib : library) (sym : string) (q : Z)
    (p : float) (ds note : string) (today : date) (db db' : database) :
  record_purchase lib sym q p ds note today db = Ok db' ->
  exists row',
    select_stock sym (stocks db') = Some row' /\
    symbol row' = sym /\
    notes row' = note /\
    quantity row' = match select_stock sym (stocks db) with
                    | Some row => quantity row + q
                    | None => q
                    end /\
    (select_stock sym (stocks db) = None -> stored_real p ->
     buy_price row' = p).
Proof.
  intros Hrun.
  destruct (record_purchase_cases lib _ _ _ _ _ _ _ _ Hrun)
    as (_ & _ & [(row & bp & d & Hsel & Hst) | (s & Hsel & Hst)]);
    rewrite Hst, Hsel.
  - eexists. split; [eapply select_update_stock; exact Hsel|].
    simpl. repeat split. discriminate.
  - eexists. split; [apply select_app_new; [exact Hsel | reflexivity]|].
    simpl. repeat split.
Qed.

Lemma stored_real_of_Z_7 : stored_real (Float.of_Z 7).
Proof. split; intros H; vm_compute in H; discriminate. Qed.

Lemma purchase_then_lookup_witness :
  exists db' row',
    record_purchase (Demo.lib []) "ACME" 3 (Float.of_Z 7) "2025-01-02" "first"
      (mkdate 2025 6 15) init_db = Ok db' /\
    select_stock "ACME" (stocks db') = Some row' /\
    notes row' = "first" /\ quantity row' = 3 /\ buy_price row' = Float.of_Z 7.
Proof.
  eexists.
  destruct (purchase_then_lookup (Demo.lib []) "ACME" 3 (Float.of_Z 7)
              "2025-01-02" "first" (mkdate 2025 6 15) init_db _ eq_refl)
    as (row' & Hsel & _ & Hn & Hq & Hp).
  exists row'. split; [reflexivity|]. split; [exact Hsel|].
  split; [exact Hn|]. split; [exact Hq|].
  apply Hp; [reflexivity | exact stored_real_of_Z_7].
Defined.

(** X3. A purchase touches one row only: every other symbol looks up as
    before, every other row is still in the table, the symbols keep their
    order (one more at the end for a new symbol), and the watchlist and the
    alerts are unchanged. *)
Theorem purchase_frame (lib : library) (sym : string) (q : Z)
    (p : float) (ds note : string) (today : date) (db db' : database) :
  record_purchase lib sym q p ds note today db = Ok db' ->
  (forall sym', sym' <> sym ->
     select_stock sym' (stocks db') = select_stock sym' (stocks db)) /\
  (forall r, In r (stocks db) -> symbol r <> sym -> In r (stocks db')) /\
  map symbol (stocks db')
  = map symbol (stocks db)
    ++ match select_stock sym (stocks db) with
       | Some _ => []
       | None => [sym]
       end /\
  watchlist db' = watchlist db /\ alerts db' = alerts db.
Proof.
  intros Hrun.
  destruct (record_purchase_cases lib _ _ _ _ _ _ _ _ Hrun)
    as (Hw & Ha & [(row & bp & d & Hsel & Hst) | (s & Hsel & Hst)]);
    rewrite Hst, Hsel.
  - split; [intros sym' Hne; apply select_update_other; exact Hne|].
    split; [intros r Hin Hne; apply update_stock_keeps; assumption|].
    split; [rewrite update_stock_symbols; now rewrite app_nil_r|].
    split; assumption.
  - split; [intros sym' Hne; apply select_app_other; simpl; congruence|].
    split; [intros r Hin _; apply in_or_app; left; exact Hin|].
    split; [rewrite map_app; reflexivity|].
    split; assumption.
Qed.

Lemma purchase_frame_witness :
  exists db',
    record_purchase (Demo.lib []) "ACME" 3 (Float.of_Z 7) "2025-01-02" ""
      (mkdate 2025 6 15)
      (mkdb [mkstock "ACME" 1 (Float.of_Z 5) "2024-01-02" "a";
             mkstock "BETA" 2 (Float.of_Z 9) "2024-05-06" "b"] ["BETA"] [])
    = Ok db' /\
    select_stock "BETA" (stocks db')
    = Some (mkstock "BETA" 2 (Float.of_Z 9) "2024-05-06" "b") /\
    map symbol (stocks db') = ["ACME"; "BETA"] /\
    watchlist db' = ["BETA"].
Proof.
  eexists.
  destruct (purchase_frame (Demo.lib []) "ACME" 3 (Float.of_Z 7) "2025-01-02" ""
              (mkdate 2025 6 15)
              (mkdb [mkstock "ACME" 1 (Float.of_Z 5) "2024-01-02" "a";
                     mkstock "BETA" 2 (Float.of_Z 9) "2024-05-06" "b"]
                 ["BETA"] []) _ eq_refl)
    as (Hother & _ & Hsyms & Hw & _).
  split; [reflexivity|].
  split; [rewrite (Hother "BETA"); [reflexivity | discriminate]|].
  split; [exact Hsyms | exact Hw].
Defined.



(** ** Invariants of the tables *)

(** The two [UNIQUE] constraints of the schema (lines 17 and 27). *)
Definition unique_constraints (db : database) : Prop :=
  unique_symbols db /\ NoDup (watchlist db).

(** A POST that returns went through every conversion and then recorded
    the purchase. *)
Lemma dashboard_post_inv (lib : library) (f : form_data) (today : date)
    (db db' : database) :
  dashboard_post lib f today db = Ok db' ->
  exists raw rq q rp p ds,
    form_item f "symbol" = Ok raw /\
    form_item f "quantity" = Ok rq /\ int_of_str lib rq = Ok q /\
    form_item f "buy_price" = Ok rp /\ float_of_str lib rp = Ok p /\
    form_item f "buy_date" = Ok ds /\
    record_purchase lib (strip (upper raw)) q p ds
      (strip (form_get f "notes" "")) today db = Ok db'.
Proof.
  unfold dashboard_post.
  destruct (form_item f "symbol") as [raw|]; simpl; [| discriminate].
  destruct (form_item f "quantity") as [rq|]; simpl; [| discriminate].
  destruct (int_of_str lib rq) as [q|] eqn:Hq; simpl; [| discriminate].
  destruct (form_item f "buy_price") as [rp|]; simpl; [| discriminate].
  destruct (float_of_str lib rp) as [p|] eqn:Hp; simpl; [| discriminate].
  destruct (form_item f "buy_date") as [ds|]; simpl; [| discriminate].
  intros H. exists raw, rq, q, rp, p, ds. repeat split; assumption.
Qed.

Lemma dashboard_inv (lib : library) (req : request) (today : date)
    (db db' : database) (r : response) :
  dashboard lib req today db = Ok (db', r) ->
  (method req = GET /\ db' = db) \/
  (method req = POST /\ r = Redirect "/" /\
   dashboard_post lib (form req) today db = Ok db').
Proof.
  unfold dashboard. destruct (method req).
  - destruct (dashboard_get lib today db); simpl; [| discriminate].
    intros H. injection H as <- _. left. split; reflexivity.
  - destruct (dashboard_post lib (form req) today db) as [d|]; simpl;
      [| discriminate].
    intros H. injection H as <- <-. right. repeat split.
Qed.

Lemma add_alert_inv (lib : library) (req : request) (db db' : database)
    (r : response) :
  add_alert lib req db = Ok (db', r) ->
  exists raw rt t,
    form_item (form req) "symbol" = Ok raw /\
    form_item (form req) "target" = Ok rt /\ float_of_str lib rt = Ok t /\
    db' = set_alerts db (alerts db ++ [mkalert (strip (upper raw)) t]) /\
    r = Redirect "/".
Proof.
  unfold add_alert.
  destruct (form_item (form req) "symbol") as [raw|]; simpl; [| discriminate].
  destruct (form_item (form req) "target") as [rt|]; simpl; [| discriminate].
  destruct (float_of_str lib rt) as [t|] eqn:Ht; simpl; [| discriminate].
  intros H. injection H as <- <-. exists raw, rt, t. repeat split. exact Ht.
Qed.

(** X5. The empty database satisfies both [UNIQUE] constraints and every
    handler keeps them: no request ever leaves two positions with one symbol
    or two watchlist entries with one symbol. *)
Theorem unique_constraints_kept :
  unique_constraints init_db /\
  (forall lib req today db db' r,
     unique_constraints db -> dashboard lib req today db = Ok (db', r) ->
     unique_constraints db') /\
  (forall req db db' r,
     unique_constraints db -> add_watch req db = Ok (db', r) ->
     unique_constraints db') /\
  (forall lib req db db' r,
     unique_constraints db -> add_alert lib req db = Ok (db', r) ->
     unique_constraints db').
Proof.
  split; [split; constructor|]. split; [| split].
  - intros lib req today db db' r [Hs Hw] Hrun.
    destruct (dashboard_inv lib req today db db' r Hrun)
      as [[_ ->] | (_ & _ & Hpost)]; [split; assumption|].
    destruct (dashboard_post_inv lib _ _ _ _ Hpost)
      as (raw & rq & q & rp & p & ds & _ & _ & _ & _ & _ & _ & Hrec).
    split.
    + exact (record_purchase_unique_symbols lib _ _ _ _ _ _ _ _ Hs Hrec).
    + destruct (record_purchase_cases lib _ _ _ _ _ _ _ _ Hrec) as (-> & _).
      exact Hw.
  - intros req db db' r [Hs Hw] Hrun. split.
    + unfold unique_symbols. revert Hrun. unfold add_watch.
      destruct (form_item (form req) "symbol") as [raw|]; simpl;
        [| discriminate].
      destruct (String.eqb (strip (upper raw)) "").
      * intros H. injection H as <- _. exact Hs.
      * destruct (insert_watch (strip (upper raw)) (watchlist db))
          as [rows|[]]; try discriminate; intros H; injection H as <- _;
          exact Hs.
    + exact (add_watch_unique req db db' r Hw Hrun).
  - intros lib req db db' r [Hs Hw] Hrun.
    destruct (add_alert_inv lib req db db' r Hrun)
      as (raw & rt & t & _ & _ & _ & -> & _).
    split; assumption.
Qed.

Lemma unique_constraints_kept_witness :
  dashboard (Demo.lib [])
    (mkrequest POST [("symbol", "acme"); ("quantity", "2");
                     ("buy_price", "3"); ("buy_date", "2025-01-02")])
    (mkdate 2025 6 15) init_db
  = Ok (mkdb [mkstock "ACME" 2 (Float.of_Z 3) "2025-01-02" ""] [] [],
        Redirect "/") /\
  add_watch (mkrequest POST [("symbol", "acme")])
    (mkdb [mkstock "ACME" 2 (Float.of_Z 3) "2025-01-02" ""] [] [])
  = Ok (mkdb [mkstock "ACME" 2 (Float.of_Z 3) "2025-01-02" ""] ["ACME"] [],
        Redirect "/") /\
  unique_constraints
    (mkdb [mkstock "ACME" 2 (Float.of_Z 3) "2025-01-02" ""] ["ACME"] []).
Proof.
  assert (E1 : dashboard (Demo.lib [])
                 (mkrequest POST [("symbol", "acme"); ("quantity", "2");
                                  ("buy_price", "3"); ("buy_date", "2025-01-02")])
                 (mkdate 2025 6 15) init_db
               = Ok (mkdb [mkstock "ACME" 2 (Float.of_Z 3) "2025-01-02" ""] [] [],
                     Redirect "/")) by (vm_compute; reflexivity).
  assert (E2 : add_watch (mkrequest POST [("symbol", "acme")])
                 (mkdb [mkstock "ACME" 2 (Float.of_Z 3) "2025-01-02" ""] [] [])
               = Ok (mkdb [mkstock "ACME" 2 (Float.of_Z 3) "2025-01-02" ""]
                       ["ACME"] [],
                     Redirect "/")) by (vm_compute; reflexivity).
  split; [exact E1|]. split; [exact E2|].
  destruct unique_constraints_kept as (H0 & Hd & Hw & _).
  exact (Hw _ _ _ _ (Hd _ _ _ _ _ _ H0 E1) E2).
Defined.

(** X6. A purchase request whose quantity is positive keeps every stored
    quantity positive. *)
Theorem positive_quantities_kept (lib : library) (f : form_data) (today : date)
    (db db' : database) (r : response) (rq : string) (q : Z) :
  positive_quantities db ->
  form_item f "quantity" = Ok rq -> int_of_str lib rq = Ok q -> 0 < q ->
  dashboard lib (mkrequest POST f) today db = Ok (db', r) ->
  positive_quantities db'.
Proof.
  intros Hpos Hf Hi Hq Hrun.
  destruct (dashboard_inv lib _ today db db' r Hrun)
    as [[Hm _] | (_ & _ & Hpost)]; [discriminate|].
  destruct (dashboard_post_inv lib _ _ _ _ Hpost)
    as (raw & rq' & q' & rp & p & ds & _ & Hf' & Hi' & _ & _ & _ & Hrec).
  simpl in Hf'. rewrite Hf in Hf'. injection Hf' as <-.
  rewrite Hi in Hi'. injection Hi' as <-.
  exact (record_purchase_positive_quantities lib _ _ _ _ _ _ _ _ Hpos Hq Hrec).
Qed.

Lemma positive_quantities_kept_witness :
  positive_quantities
    (mkdb [mkstock "ACME" 6 (weighted_average (Float.of_Z 5) 4 (Float.of_Z 3) 2)
             "2024-01-02" ""] [] []).
Proof.
  apply (positive_quantities_kept (Demo.lib [])
           [("symbol", "acme"); ("quantity", "2");
            ("buy_price", "3"); ("buy_date", "2025-01-02")]
           (mkdate 2025 6 15)
           (mkdb [mkstock "ACME" 4 (Float.of_Z 5) "2024-01-02" ""] [] [])
           _ (Redirect "/") "2" 2).
  - repeat constructor.
  - reflexivity.
  - reflexivity.
  - lia.
  - vm_compute. reflexivity.
Defined.

(** ** A run of purchases of one symbol *)

Record purchase : Type := mkpurchase {
  pu_quantity : Z;
  pu_price : float;
  pu_date : string;
  pu_notes : string
}.

(** The purchase handler applied to each purchase in turn. *)
Fixpoint record_purchases (lib : library) (sym : string) (l : list purchase)
    (today : date) (db : database) : result database :=
  match l with
  | [] => Ok db
  | x :: l' =>
      db1 <- record_purchase lib sym (pu_quantity x) (pu_price x) (pu_date x)
               (pu_notes x) today db ;;
      record_purchases lib sym l' today db1
  end.

Definition total_quantity (l : list purchase) : Z :=
  fold_right (fun x acc => pu_quantity x + acc) 0 l.

Lemma total_quantity_nonneg (l : list purchase) :
  Forall (fun x => 0 < pu_quantity x) l -> 0 <= total_quantity l.
Proof.
  induction 1 as [|x l Hx _ IH]; simpl; lia.
Qed.

(** *** Averages of prices that are not negative are numbers *)

Lemma shr_record_of_loc_m (m : Z) (l : location) :
  shr_m (shr_record_of_loc m l) = m.
Proof. destruct l as [|[| |]]; reflexivity. Qed.

Lemma shr_m_nonneg (mrs : shr_record) (e n : Z) :
  0 <= shr_m mrs -> 0 <= shr_m (fst (shr mrs e n)).
Proof.
  intros Hm. destruct n as [|k|k]; simpl; try exact Hm.
  rewrite iter_pos_shr_1 by exact Hm. apply iter_div2_nonneg. exact Hm.
Qed.

Lemma binary_round_aux_nonneg (mx ex : Z) (lx : location) :
  0 <= mx ->
  nonneg_float (binary_round_aux Float.prec Float.emax false mx ex lx).
Proof.
  intros Hmx. unfold binary_round_aux, shr_fexp.
  match goal with
  | |- context [shr ?r ex ?n] =>
      pose proof (shr_m_nonneg r ex n) as H1;
      destruct (shr r ex n) as [mrs1 e1]
  end.
  simpl fst in H1. rewrite shr_record_of_loc_m in H1. specialize (H1 Hmx).
  pose proof (round_nearest_even_bounds (shr_m mrs1) (loc_of_shr_record mrs1))
    as Hb.
  match goal with
  | |- context [shr ?r e1 ?n] =>
      pose proof (shr_m_nonneg r e1 n) as H3;
      destruct (shr r e1 n) as [mrs3 e3]
  end.
  simpl fst in H3. rewrite shr_record_of_loc_m in H3.
  assert (H4 : 0 <= shr_m mrs3) by (apply H3; lia).
  destruct (shr_m mrs3) as [|m3|m3]; [exact I | | lia].
  destruct (e3 <=? Float.emax - Float.prec); exact I.
Qed.

Lemma binary_round_nonneg (m : positive) (e : Z) :
  nonneg_float (binary_round Float.prec Float.emax false m e).
Proof.
  unfold binary_round.
  destruct (shl_align m e _) as [mz ez].
  apply binary_round_aux_nonneg. lia.
Qed.

Lemma mul_nonneg (x : float) (m : positive) (e : Z) :
  nonneg_float x -> nonneg_float (Float.mul x (S754_finite false m e)).
Proof.
  destruct x as [[]|[]| |[] mx ex]; simpl; try contradiction; intros _;
    try exact I.
  apply binary_round_aux_nonneg. lia.
Qed.

Lemma add_nonneg (x y : float) :
  nonneg_float x -> nonneg_float y -> nonneg_float (Float.add x y).
Proof.
  destruct x as [[]|[]| |[] mx ex]; simpl; try contradiction; intros _;
    destruct y as [[]|[]| |[] my ey]; simpl; try contradiction; intros _;
    try exact I.
  apply binary_round_nonneg.
Qed.

Lemma div_nonneg (x : float) (m : positive) (e : Z) :
  nonneg_float x -> nonneg_float (Float.div x (S754_finite false m e)).
Proof.
  destruct x as [[]|[]| |[] mx ex]; simpl; try contradiction; intros _;
    try exact I.
  unfold Float.div, SFdiv, SFdiv_core_binary.
  match goal with
  | |- context [Z.div_eucl ?a ?b] =>
      pose proof (Z.div_pos a b) as Hq;
      assert (Ha : 0 <= a);
      [| unfold Z.div in Hq; destruct (Z.div_eucl a b) as [q r] ]
  end.
  - match goal with
    | |- 0 <= match ?s with _ => _ end =>
        destruct s; [lia | apply Z.shiftl_nonneg; lia | lia]
    end.
  - apply binary_round_aux_nonneg. apply Hq; [exact Ha | lia].
Qed.

Lemma nonneg_price_float (x : float) : nonneg_price x -> nonneg_float x.
Proof. destruct x as [[]|[]| |[] m e]; simpl; tauto. Qed.

Lemma nonneg_float_not_nan (x : float) : nonneg_float x -> x <> S754_nan.
Proof. intros H ->. exact H. Qed.

(** The average of line 83 over prices that are not negative and positive
    64-bit quantities is a number that is not negative. *)
Lemma weighted_average_nonneg (c0 p : float) (q0 q : Z) :
  nonneg_float c0 -> nonneg_float p ->
  0 < q0 -> 0 < q -> int64 (q0 + q) ->
  nonneg_float (weighted_average c0 q0 p q).
Proof.
  intros Hc Hp H0 Hq Hn. unfold weighted_average.
  assert (Hb : forall z, 0 < z -> z <= q0 + q ->
            exists m e, Float.of_Z z = S754_finite false m e).
  { intros z Hz Hle.
    destruct (of_Z_finite z) as (m & e & E); [lia | |].
    - apply int64_float_range. unfold int64 in *. lia.
    - exists m, e. rewrite E. destruct (Z.ltb_spec z 0); [lia | reflexivity]. }
  destruct (Hb q0) as (m0 & e0 & ->); [lia | lia |].
  destruct (Hb q) as (m1 & e1 & ->); [lia | lia |].
  destruct (Hb (q0 + q)) as (m2 & e2 & ->); [lia | lia |].
  apply div_nonneg. apply add_nonneg; apply mul_nonneg; assumption.
Qed.

Lemma record_purchases_existing (lib : library) (sym : string) (today : date)
    (l : list purchase) :
  Forall (fun x => 0 < pu_quantity x /\ nonneg_price (pu_price x)) l ->
  forall (db : database) (row : stock),
    select_stock sym (stocks db) = Some row ->
    0 < quantity row -> nonneg_float (buy_price row) ->
    int64 (quantity row + total_quantity l) ->
    exists db' row',
      record_purchases lib sym l today db = Ok db' /\
      select_stock sym (stocks db') = Some row' /\
      quantity row' = quantity row + total_quantity l /\
      nonneg_float (buy_price row').
Proof.
  induction 1 as [|x l [Hx Hpx] Hl IH]; intros db row Hsel Hpos Hbp Hb;
    simpl in *.
  - exists db, row. split; [reflexivity|]. split; [exact Hsel|].
    split; [lia | exact Hbp].
  - assert (Hnn : 0 <= total_quantity l).
    { apply total_quantity_nonneg. eapply Forall_impl; [| exact Hl].
      intros y [Hy _]. exact Hy. }
    destruct (normalize_buy_date lib today (pu_date x)) as [bd s] eqn:Hbd.
    assert (H64 : int64 (quantity row + pu_quantity x))
      by (unfold int64 in *; lia).
    assert (Hm : merge_defined (quantity row) (pu_quantity x))
      by (apply positive_merge_defined; assumption).
    rewrite (record_purchase_merge lib sym _ _ _ _ today db row bd s Hsel Hm Hbd).
    simpl bind.
    match goal with
    | |- context [update_stock sym ?q ?bp ?d ?n (stocks db)] =>
        destruct (IH (set_stocks db (update_stock sym q bp d n (stocks db)))
                    (mkstock sym q bp d n)
                    (select_update_stock sym q bp d n (stocks db) row Hsel))
          as (db' & row' & Hrun & Hsel' & Hq' & Hbp')
    end.
    + simpl. lia.
    + simpl. apply weighted_average_nonneg; try assumption.
      apply nonneg_price_float. exact Hpx.
    + simpl. replace (quantity row + pu_quantity x + total_quantity l)
        with (quantity row + (pu_quantity x + total_quantity l)) by lia.
      exact Hb.
    + exists db', row'. split; [exact Hrun|]. split; [exact Hsel'|].
      split; [rewrite Hq'; simpl; lia | exact Hbp'].
Qed.

(** X7. The quantity of a position is the sum of the purchases merged
    into it: recording a non-empty run of purchases of positive quantities
    at finite prices that are not negative, of a symbol that had no
    position, succeeds and leaves it with the total quantity and an average
    cost that is a number; every average computed on the way is one too. *)
Theorem quantity_is_sum_of_purchases (lib : library) (sym : string)
    (today : date) (db : database) (x : purchase) (l : list purchase) :
  select_stock sym (stocks db) = None ->
  Forall (fun y => 0 < pu_quantity y /\ nonneg_price (pu_price y)) (x :: l) ->
  int64 (total_quantity (x :: l)) ->
  exists db' row',
    record_purchases lib sym (x :: l) today db = Ok db' /\
    select_stock sym (stocks db') = Some row' /\
    quantity row' = total_quantity (x :: l) /\
    nonneg_float (buy_price row').
Proof.
  intros Hsel Hall Hb. inversion Hall as [|y l' [Hx Hpx] Hl]; subst.
  simpl record_purchases.
  destruct (normalize_buy_date lib today (pu_date x)) as [bd s] eqn:Hbd.
  rewrite (record_purchase_new lib sym _ _ _ _ today db bd s Hsel Hbd).
  simpl bind.
  destruct (record_purchases_existing lib sym today l Hl
              (set_stocks db
                 (stocks db ++ [mkstock sym (pu_quantity x) (pu_price x) s
                                  (pu_notes x)]))
              (mkstock sym (pu_quantity x) (pu_price x) s (pu_notes x)))
    as (db' & row' & Hrun & Hsel' & Hq' & Hbp').
  - simpl. apply select_app_new; [exact Hsel | reflexivity].
  - exact Hx.
  - simpl. apply nonneg_price_float. exact Hpx.
  - exact Hb.
  - exists db', row'. split; [exact Hrun|]. split; [exact Hsel'|].
    split; [exact Hq' | exact Hbp'].
Qed.

Lemma quantity_is_sum_of_purchases_witness :
  exists db' row',
    record_purchases (Demo.lib []) "ACME"
      [mkpurchase 3 (Float.of_Z 10) "2025-01-02" "a";
       mkpurchase 4 (Float.of_Z 12) "2025-02-03" "b";
       mkpurchase 5 (Float.of_Z 9) "2025-03-04" "c"]
      (mkdate 2025 6 15) init_db = Ok db' /\
    select_stock "ACME" (stocks db') = Some row' /\
    quantity row' = 12 /\
    nonneg_float (buy_price row').
Proof.
  apply (quantity_is_sum_of_purchases (Demo.lib []) "ACME" (mkdate 2025 6 15)
           init_db (mkpurchase 3 (Float.of_Z 10) "2025-01-02" "a")
           [mkpurchase 4 (Float.of_Z 12) "2025-02-03" "b";
            mkpurchase 5 (Float.of_Z 9) "2025-03-04" "c"]).
  - reflexivity.
  - repeat constructor; simpl; try lia; vm_compute; exact I.
  - unfold int64. simpl. lia.
Defined.

(** ** Form fields *)

(** X8. The four fields the purchase handler reads with [request.form[...]]
    are required: when one of them is absent the request raises and writes
    nothing, and it is [BadRequestKeyError] that is raised when the fields
    read before it are present and convert.  In particular an absent
    [buy_date] is rejected, where a blank one falls back to today. *)
Theorem missing_field_rejected (lib : library) (f : form_data) (today : date)
    (db : database) (key : string) :
  In key ["symbol"; "quantity"; "buy_price"; "buy_date"] ->
  form_lookup f key = None ->
  (exists e, dashboard lib (mkrequest POST f) today db = Raise e) /\
  (key = "symbol" ->
   dashboard lib (mkrequest POST f) today db = Raise BadRequestKeyError) /\
  (forall raw rq q rp p,
     key = "buy_date" ->
     form_item f "symbol" = Ok raw ->
     form_item f "quantity" = Ok rq -> int_of_str lib rq = Ok q ->
     form_item f "buy_price" = Ok rp -> float_of_str lib rp = Ok p ->
     dashboard lib (mkrequest POST f) today db = Raise BadRequestKeyError).
Proof.
  intros Hin Hnone.
  assert (Hitem : form_item f key = Raise BadRequestKeyError)
    by (unfold form_item; now rewrite Hnone).
  split; [| split].
  - unfold dashboard, dashboard_post. simpl method. simpl form.
    destruct (form_item f "symbol") as [raw|e] eqn:E1; simpl; [| eauto].
    destruct (form_item f "quantity") as [rq|e] eqn:E2; simpl; [| eauto].
    destruct (int_of_str lib rq) as [q|e]; simpl; [| eauto].
    destruct (form_item f "buy_price") as [rp|e] eqn:E3; simpl; [| eauto].
    destruct (float_of_str lib rp) as [p|e]; simpl; [| eauto].
    destruct (form_item f "buy_date") as [ds|e] eqn:E4; simpl; [| eauto].
    simpl in Hin.
    destruct Hin as [<-|[<-|[<-|[<-|[]]]]]; congruence.
  - intros ->. unfold dashboard, dashboard_post. simpl method. simpl form.
    now rewrite Hitem.
  - intros raw rq q rp p -> Hs Hq Hi Hp Hf.
    unfold dashboard, dashboard_post. simpl method. simpl form.
    rewrite Hs. simpl. rewrite Hq. simpl. rewrite Hi. simpl.
    rewrite Hp. simpl. rewrite Hf. simpl. now rewrite Hitem.
Qed.

Lemma missing_field_rejected_witness :
  dashboard (Demo.lib [])
    (mkrequest POST [("symbol", "acme"); ("quantity", "2"); ("buy_price", "3")])
    (mkdate 2025 6 15) init_db
  = Raise BadRequestKeyError.
Proof.
  apply (proj2 (proj2 (missing_field_rejected (Demo.lib [])
                         [("symbol", "acme"); ("quantity", "2");
                          ("buy_price", "3")]
                         (mkdate 2025 6 15) init_db "buy_date"
                         (or_intror (or_intror (or_intror (or_introl eq_refl))))
                         eq_refl))
           "acme" "2" 2 "3" (Float.of_Z 3));
    reflexivity.
Defined.

(** X9. The notes field is optional and stored stripped: whenever a
    purchase request returns, it answers with a redirect to "/", and the row
    of the normalised symbol carries the stripped notes of the form, the
    empty string when the form has no notes field. *)
Theorem notes_are_optional (lib : library) (f : form_data) (today : date)
    (db db' : database) (r : response) (raw : string) :
  form_item f "symbol" = Ok raw ->
  dashboard lib (mkrequest POST f) today db = Ok (db', r) ->
  r = Redirect "/" /\
  exists row',
    select_stock (strip (upper raw)) (stocks db') = Some row' /\
    notes row' = strip (form_get f "notes" "") /\
    (form_lookup f "notes" = None -> notes row' = "").
Proof.
  intros Hs Hrun.
  destruct (dashboard_inv lib _ today db db' r Hrun)
    as [[Hm _] | (_ & -> & Hpost)]; [discriminate|].
  split; [reflexivity|].
  destruct (dashboard_post_inv lib _ _ _ _ Hpost)
    as (raw' & rq & q & rp & p & ds & Hs' & _ & _ & _ & _ & _ & Hrec).
  simpl in Hs'. rewrite Hs in Hs'. injection Hs' as <-.
  destruct (record_purchase_cases lib _ _ _ _ _ _ _ _ Hrec)
    as (_ & _ & [(row & bp & d & Hsel & Hst) | (s & Hsel & Hst)]);
    rewrite Hst.
  - eexists. split; [eapply select_update_stock; exact Hsel|]. simpl.
    split; [reflexivity|]. intros Hn. unfold form_get. now rewrite Hn.
  - eexists. split; [apply select_app_new; [exact Hsel | reflexivity]|].
    simpl. split; [reflexivity|]. intros Hn. unfold form_get. now rewrite Hn.
Qed.

Lemma notes_are_optional_witness :
  exists row',
    select_stock "ACME"
      (stocks (mkdb [mkstock "ACME" 2 (Float.of_Z 3) "2025-01-02" ""] [] []))
    = Some row' /\
    notes row' = "".
Proof.
  destruct (notes_are_optional (Demo.lib [])
              [("symbol", "acme"); ("quantity", "2");
               ("buy_price", "3"); ("buy_date", "2025-01-02")]
              (mkdate 2025 6 15) init_db
              (mkdb [mkstock "ACME" 2 (Float.of_Z 3) "2025-01-02" ""] [] [])
              (Redirect "/") "acme" eq_refl)
    as (_ & row' & Hsel & _ & Hn).
  - vm_compute. reflexivity.
  - exists row'. split; [exact Hsel|]. apply Hn. reflexivity.
Defined.

(** ** The watchlist and the alerts *)

(** X10. With the symbol field present [add_watch] never raises: it
    answers with a redirect to "/", leaves the positions and the alerts
    alone, and the watchlist is either unchanged (a blank symbol, or one
    already listed) or the old list followed by the normalised symbol.
    Without the field it raises [BadRequestKeyError]. *)
Theorem add_watch_outcomes (req : request) (db : database) :
  (form_lookup (form req) "symbol" = None ->
   add_watch req db = Raise BadRequestKeyError) /\
  (forall raw,
     form_item (form req) "symbol" = Ok raw ->
     exists db',
       add_watch req db = Ok (db', Redirect "/") /\
       stocks db' = stocks db /\ alerts db' = alerts db /\
       (strip (upper raw) = "" -> db' = db) /\
       (In (strip (upper raw)) (watchlist db) -> db' = db) /\
       (strip (upper raw) <> "" -> ~ In (strip (upper raw)) (watchlist db) ->
        watchlist db' = watchlist db ++ [strip (upper raw)])).
Proof.
  split.
  - intros Hn. unfold add_watch, form_item. now rewrite Hn.
  - intros raw Hf.
    destruct (in_dec string_dec (strip (upper raw)) (watchlist db)) as [Hin|Hin].
    + exists db. rewrite (add_watch_present req db raw Hf Hin).
      repeat split. intros _ Hnot. contradiction.
    + destruct (string_dec (strip (upper raw)) "") as [He|He].
      * exists db. split.
        -- unfold add_watch. rewrite Hf. simpl bind. now rewrite He.
        -- repeat split. intros Hne. contradiction.
      * exists (set_watchlist db (watchlist db ++ [strip (upper raw)])).
        rewrite (add_watch_absent req db raw Hf He Hin).
        repeat split; intros; contradiction.
Qed.

Lemma add_watch_outcomes_witness :
  exists db',
    add_watch (mkrequest POST [("symbol", "msft")])
      (mkdb [] ["AAPL"] []) = Ok (db', Redirect "/") /\
    watchlist db' = ["AAPL"; "MSFT"].
Proof.
  destruct (proj2 (add_watch_outcomes (mkrequest POST [("symbol", "msft")])
                     (mkdb [] ["AAPL"] [])) "msft" eq_refl)
    as (db' & Hrun & _ & _ & _ & _ & Hnew).
  exists db'. split; [exact Hrun|]. apply Hnew.
  - discriminate.
  - simpl. intros [H|[]]. discriminate.
Defined.

(** X11. [add_alert] always appends: whenever it returns, the positions
    and the watchlist are unchanged, the alerts are the old ones followed by
    the new one (a second alert for a symbol is accepted like the first),
    and the next page evaluates the old alerts and then the new one. *)
Theorem added_alert_is_evaluated (lib : library) (req : request) (today : date)
    (db db' : database) (r : response) (ctx : template_context) :
  add_alert lib req db = Ok (db', r) ->
  dashboard_get lib today db' = Ok ctx ->
  stocks db' = stocks db /\ watchlist db' = watchlist db /\
  exists a,
    alerts db' = alerts db ++ [a] /\
    ctx_alerts ctx = map (alert_entry lib) (alerts db) ++ [alert_entry lib a].
Proof.
  intros Hadd Hget.
  destruct (add_alert_inv lib req db db' r Hadd)
    as (raw & rt & t & _ & _ & _ & -> & _).
  split; [reflexivity|]. split; [reflexivity|].
  exists (mkalert (strip (upper raw)) t). split; [reflexivity|].
  unfold dashboard_get in Hget. simpl stocks in Hget.
  destruct (portfolio_calculations lib today (stocks db)); simpl in Hget;
    [| discriminate].
  injection Hget as <-. simpl. apply map_app.
Qed.

Lemma added_alert_is_evaluated_witness :
  exists ctx,
    dashboard_get (Demo.lib [("ACME", Float.of_Z 12)]) (mkdate 2025 6 15)
      (mkdb [] [] [mkalert "ACME" (Float.of_Z 20); mkalert "ACME" (Float.of_Z 10)])
    = Ok ctx /\
    map a_hit (ctx_alerts ctx) = [false; true].
Proof.
  destruct (dashboard_get (Demo.lib [("ACME", Float.of_Z 12)]) (mkdate 2025 6 15)
              (mkdb [] []
                 [mkalert "ACME" (Float.of_Z 20); mkalert "ACME" (Float.of_Z 10)]))
    as [ctx|e] eqn:G; [| vm_compute in G; discriminate].
  exists ctx. split; [reflexivity|].
  destruct (added_alert_is_evaluated (Demo.lib [("ACME", Float.of_Z 12)])
              (mkrequest POST [("symbol", "acme"); ("target", "10")])
              (mkdate 2025 6 15)
              (mkdb [] [] [mkalert "ACME" (Float.of_Z 20)])
              (mkdb [] []
                 [mkalert "ACME" (Float.of_Z 20); mkalert "ACME" (Float.of_Z 10)])
              (Redirect "/") ctx eq_refl G)
    as (_ & _ & a & Ha & Hctx).
  simpl in Ha. injection Ha as <-.
  rewrite Hctx. vm_compute. reflexivity.
Defined.

Lemma geb_nan_l (b : float) : Float.geb S754_nan b = false.
Proof. destruct b as [| | |[] ? ?]; reflexivity. Qed.

(** X12. A NaN quote never triggers an alert: when the price lookup
    answers a NaN, [hit] is false whatever the target. *)
Theorem nan_never_hits (lib : library) (a : alert) :
  get_live_price lib (alert_symbol a) = Some S754_nan ->
  a_hit (alert_entry lib a) = false.
Proof.
  unfold alert_entry. intros Hp. rewrite Hp. apply geb_nan_l.
Qed.

Lemma nan_never_hits_witness :
  a_hit (alert_entry (Demo.lib [("ACME", S754_nan)])
           (mkalert "ACME" (Float.of_Z 10))) = false.
Proof.
  apply (nan_never_hits (Demo.lib [("ACME", S754_nan)])
           (mkalert "ACME" (Float.of_Z 10))).
  reflexivity.
Defined.

(** ** The page *)


Lemma map_entry_fields (lib : library) (today : date) (rows : list stock)
    (vs : list valuation) :
  Forall2 (valuation_of lib today) rows vs ->
  map p_symbol (map (portfolio_entry lib) vs) = map symbol rows /\
  map p_qty (map (portfolio_entry lib) vs) = map quantity rows /\
  map p_buy_date (map (portfolio_entry lib) vs) = map buy_date rows /\
  map p_notes (map (portfolio_entry lib) vs) = map notes rows.
Proof.
  intros H. destruct (valuation_of_rows lib today rows vs H) as [Hmap _].
  rewrite <- Hmap, !map_map. repeat split.
Qed.

(** X13. A GET on stored rows that hold numbers (64-bit quantities, no
    price and no target missing) never fails and never writes: it renders
    the page and hands the database back as it was, with one portfolio
    entry per position in table order carrying the stored symbol, quantity,
    date text and notes, the watchlist as stored, one evaluated alert per
    alert row in order, and the eight trending symbols in their fixed
    order. *)
Theorem page_lists_the_tables (lib : library) (f : form_data) (today : date)
    (db : database) :
  int64_rows (stocks db) -> numeric_rows db ->
  exists ctx,
    dashboard lib (mkrequest GET f) today db = Ok (db, Render ctx) /\
    map p_symbol (ctx_portfolio ctx) = map symbol (stocks db) /\
    map p_qty (ctx_portfolio ctx) = map quantity (stocks db) /\
    map p_buy_date (ctx_portfolio ctx) = map buy_date (stocks db) /\
    map p_notes (ctx_portfolio ctx) = map notes (stocks db) /\
    ctx_watchlist ctx = watchlist db /\
    map a_symbol (ctx_alerts ctx) = map alert_symbol (alerts db) /\
    map t_symbol (ctx_trending ctx) = TRENDING.
Proof.
  intros Hrows _.
  destruct (portfolio_calculations_spec lib today (stocks db) Hrows)
    as (vs & _ & Hall & Hrun).
  destruct (map_entry_fields lib today (stocks db) vs Hall)
    as (H1 & H2 & H3 & H4).
  eexists. split.
  - unfold dashboard, dashboard_get. simpl method. rewrite Hrun. reflexivity.
  - simpl. repeat split; try assumption.
    rewrite map_map. reflexivity.
Qed.

Lemma page_lists_the_tables_witness :
  exists ctx,
    dashboard (Demo.lib []) (mkrequest GET []) (mkdate 2025 6 15)
      (mkdb [mkstock "B" 1 (Float.of_Z 5) "2024-06-14" "";
             mkstock "A" 2 (Float.of_Z 6) "2024-06-15" ""] ["Z"; "Y"] [])
    = Ok (mkdb [mkstock "B" 1 (Float.of_Z 5) "2024-06-14" "";
                mkstock "A" 2 (Float.of_Z 6) "2024-06-15" ""] ["Z"; "Y"] [],
          Render ctx) /\
    map p_symbol (ctx_portfolio ctx) = ["B"; "A"] /\
    ctx_watchlist ctx = ["Z"; "Y"].
Proof.
  destruct (page_lists_the_tables (Demo.lib []) [] (mkdate 2025 6 15)
              (mkdb [mkstock "B" 1 (Float.of_Z 5) "2024-06-14" "";
                     mkstock "A" 2 (Float.of_Z 6) "2024-06-15" ""] ["Z"; "Y"] []))
    as (ctx & Hrun & Hsym & _ & _ & _ & Hw & _).
  - repeat constructor; simpl; lia.
  - split; repeat constructor; simpl; intros H; vm_compute in H; discriminate.
  - exists ctx. split; [exact Hrun|]. split; [exact Hsym | exact Hw].
Defined.

(** X14. Rounding happens at the boundary only: the totals handed to the
    template are the roundings of sums of unrounded per-position amounts,
    and the profit shown is the rounding of the difference of the unrounded
    totals, not the difference of the rounded ones. *)
Theorem totals_round_once (lib : library) (today : date) (db : database) :
  int64_rows (stocks db) ->
  exists ctx vs,
    dashboard_get lib today db = Ok ctx /\
    valuate_all lib today (stocks db) = Ok vs /\
    ctx_total_invested ctx = round2 lib (Float.sum (map v_invested vs)) /\
    ctx_total_value ctx = round2 lib (Float.sum (map v_current vs)) /\
    ctx_total_profit ctx
    = round2 lib (Float.sub (Float.sum (map v_current vs))
                            (Float.sum (map v_invested vs))) /\
    ctx_total_long_pl ctx
    = round2 lib (Float.sum (map v_pl (filter (in_class "Long") vs))) /\
    ctx_total_short_pl ctx
    = round2 lib (Float.sum (map v_pl (filter (in_class "Short") vs))) /\
    map p_invest (ctx_portfolio ctx) = map (fun v => round2 lib (v_invested v)) vs /\
    map p_profit (ctx_portfolio ctx) = map (fun v => round2 lib (v_pl v)) vs.
Proof.
  intros Hrows.
  destruct (portfolio_calculations_spec lib today (stocks db) Hrows)
    as (vs & Hvs & _ & Hrun).
  eexists. exists vs. split.
  - unfold dashboard_get. rewrite Hrun. reflexivity.
  - split; [exact Hvs|]. simpl. rewrite !map_map. repeat split.
Qed.

(** One and a half units at 0.335 and at 0.336: the total is the rounding
    of the unrounded sum. *)
Lemma totals_round_once_witness :
  exists ctx,
    dashboard_get (Demo.lib []) (mkdate 2025 6 15)
      (mkdb [mkstock "A" 1 (Float.div (Float.of_Z 335) (Float.of_Z 1000))
               "2025-01-02" "";
             mkstock "B" 1 (Float.div (Float.of_Z 336) (Float.of_Z 1000))
               "2025-01-02" ""] [] [])
    = Ok ctx /\
    ctx_total_invested ctx = Float.div (Float.of_Z 67) (Float.of_Z 100).
Proof.
  destruct (totals_round_once (Demo.lib []) (mkdate 2025 6 15)
              (mkdb [mkstock "A" 1 (Float.div (Float.of_Z 335) (Float.of_Z 1000))
                       "2025-01-02" "";
                     mkstock "B" 1 (Float.div (Float.of_Z 336) (Float.of_Z 1000))
                       "2025-01-02" ""] [] []))
    as (ctx & vs & Hrun & Hvs & Hinv & _).
  - repeat constructor; simpl; lia.
  - exists ctx. split; [exact Hrun|]. rewrite Hinv.
    vm_compute in Hvs. injection Hvs as <-. vm_compute. reflexivity.
Defined.





(** ** A purchase and the page of the same day *)

Lemma days_between_same (d : date) : days_between d d = 0.
Proof. unfold days_between. lia. Qed.

(** X17. A first purchase, at a price the column gives back as written,
    whose date text does not parse, or lies in the future, is stored under
    today's text, and the page of the same day classifies the position
    "Short", provided today's text parses back to today. *)
Theorem clamped_purchase_is_short (lib : library) (sym : string) (q : Z)
    (p : float) (ds note : string) (today : date) (db : database) :
  strptime lib (strftime lib today) = Ok today ->
  select_stock sym (stocks db) = None ->
  (forall d, strptime lib ds = Ok d -> date_ltb today d = true) ->
  int64 q -> stored_real p ->
  exists db' row v,
    record_purchase lib sym q p ds note today db = Ok db' /\
    select_stock sym (stocks db') = Some row /\
    buy_date row = strftime lib today /\
    valuate_row lib today row = Ok v /\
    v_holding_type v = "Short".
Proof.
  intros Hrt Hsel Hbad Hq _.
  assert (Hbd : normalize_buy_date lib today ds = (today, strftime lib today)).
  { destruct (strptime lib ds) as [d|e] eqn:Hs.
    - assert (Hp : parse_date lib ds = Some d)
        by (unfold parse_date; now rewrite Hs).
      apply (normalize_buy_date_future lib today d ds Hp). apply Hbad.
      reflexivity.
    - assert (Hp : parse_date lib ds = None)
        by (unfold parse_date; now rewrite Hs).
      apply (normalize_buy_date_malformed lib today ds Hp). }
  exists (set_stocks db
            (stocks db ++ [mkstock sym q p (strftime lib today) note])),
    (mkstock sym q p (strftime lib today) note).
  eexists.
  split; [apply (record_purchase_new lib sym q p ds note today db today _ Hsel Hbd)|].
  split; [simpl; apply select_app_new; [exact Hsel | reflexivity]|].
  split; [reflexivity|].
  split; [apply valuate_row_int64; exact Hq|].
  simpl. unfold parse_date. rewrite Hrt. simpl.
  now rewrite days_between_same.
Qed.

Lemma clamped_purchase_is_short_witness :
  exists db' row v,
    record_purchase (Demo.lib []) "ACME" 2 (Float.of_Z 3) "next week" ""
      (mkdate 2025 6 15) init_db = Ok db' /\
    select_stock "ACME" (stocks db') = Some row /\
    buy_date row = "2025-06-15" /\
    valuate_row (Demo.lib []) (mkdate 2025 6 15) row = Ok v /\
    v_holding_type v = "Short".
Proof.
  apply (clamped_purchase_is_short (Demo.lib []) "ACME" 2 (Float.of_Z 3)
           "next week" "" (mkdate 2025 6 15) init_db).
  - reflexivity.
  - reflexivity.
  - intros d H. vm_compute in H. discriminate.
  - unfold int64. lia.
  - split; intros H; vm_compute in H; discriminate.
Defined.

(** ** [init_db] on an existing file *)

(** A database file: each table exists or not. *)
Record db_file : Type := mkfile {
  file_stocks : option (list stock);
  file_watchlist : option (list string);
  file_alerts : option (list alert)
}.

(** [CREATE TABLE IF NOT EXISTS] *)
Definition create_if_not_exists {A : Type} (t : option (list A))
    : option (list A) :=
  match t with
  | Some rows => Some rows
  | None => Some []
  end.

(** Lines 11 to 38. *)
Definition init_db_file (f : db_file) : db_file :=
  mkfile (create_if_not_exists (file_stocks f))
         (create_if_not_exists (file_watchlist f))
         (create_if_not_exists (file_alerts f)).

(** The database a file holds once its three tables exist. *)
Definition tables (f : db_file) : option database :=
  match file_stocks f, file_watchlist f, file_alerts f with
  | Some s, Some w, Some a => Some (mkdb s w a)
  | _, _, _ => None
  end.

(** X18. [init_db] never drops a row: it creates the tables that are
    missing, empty, and keeps the rows of those that exist, so running it
    again at the next start changes nothing; on a new file it gives the
    empty database. *)
Theorem init_db_keeps_rows (f : db_file) :
  init_db_file (init_db_file f) = init_db_file f /\
  (exists db, tables (init_db_file f) = Some db) /\
  (forall db, tables f = Some db -> tables (init_db_file f) = Some db) /\
  (forall rows, file_stocks f = Some rows ->
     file_stocks (init_db_file f) = Some rows) /\
  (forall rows, file_watchlist f = Some rows ->
     file_watchlist (init_db_file f) = Some rows) /\
  (forall rows, file_alerts f = Some rows ->
     file_alerts (init_db_file f) = Some rows) /\
  tables (init_db_file (mkfile None None None)) = Some init_db.
Proof.
  destruct f as [[s|] [w|] [a|]]; unfold init_db_file, tables; simpl;
    repeat split; eauto; try discriminate; try (intros ? H; exact H).
Qed.

Lemma init_db_keeps_rows_witness :
  tables (init_db_file
            (mkfile (Some [mkstock "ACME" 2 (Float.of_Z 3) "2025-01-02" ""])
               None None))
  = Some (mkdb [mkstock "ACME" 2 (Float.of_Z 3) "2025-01-02" ""] [] []).
Proof.
  destruct (init_db_keeps_rows
              (mkfile (Some [mkstock "ACME" 2 (Float.of_Z 3) "2025-01-02" ""])
                 None None))
    as (_ & _ & _ & Hs & _).
  unfold tables. rewrite (Hs _ eq_refl). reflexivity.
Defined.

(** ** Stored symbols are normalised *)

Definition normalized (s : string) : Prop := strip (upper s) = s.

Definition normalized_symbols (db : database) : Prop :=
  Forall normalized (map symbol (stocks db)) /\
  Forall normalized (watchlist db) /\
  Forall normalized (map alert_symbol (alerts db)).

Lemma Forall_snoc {A : Type} (P : A -> Prop) (l : list A) (x : A) :
  Forall P l -> P x -> Forall P (l ++ [x]).
Proof. intros Hl Hx. apply Forall_app. split; [exact Hl | now constructor]. Qed.

(** X19. Every symbol the handlers write is in upper case without
    surrounding white space: starting from the empty database, each of the
    three tables only ever holds symbols that [.upper().strip()] leaves
    unchanged. *)
Theorem stored_symbols_normalized :
  normalized_symbols init_db /\
  (forall lib req today db db' r,
     normalized_symbols db -> dashboard lib req today db = Ok (db', r) ->
     normalized_symbols db') /\
  (forall req db db' r,
     normalized_symbols db -> add_watch req db = Ok (db', r) ->
     normalized_symbols db') /\
  (forall lib req db db' r,
     normalized_symbols db -> add_alert lib req db = Ok (db', r) ->
     normalized_symbols db').
Proof.
  split; [repeat split; constructor|]. split; [| split].
  - intros lib req today db db' r (Hs & Hw & Ha) Hrun.
    destruct (dashboard_inv lib req today db db' r Hrun)
      as [[_ ->] | (_ & _ & Hpost)]; [repeat split; assumption|].
    destruct (dashboard_post_inv lib _ _ _ _ Hpost)
      as (raw & rq & q & rp & p & ds & _ & _ & _ & _ & _ & _ & Hrec).
    unfold normalized_symbols.
    destruct (record_purchase_cases lib _ _ _ _ _ _ _ _ Hrec)
      as (-> & -> & [(row & bp & d & Hsel & ->) | (s & Hsel & ->)]).
    + rewrite update_stock_symbols. repeat split; assumption.
    + rewrite map_app. simpl. repeat split; try assumption.
      apply Forall_snoc; [exact Hs | apply strip_upper_fixed].
  - intros req db db' r (Hs & Hw & Ha) Hrun. revert Hrun. unfold add_watch.
    destruct (form_item (form req) "symbol") as [raw|]; simpl; [| discriminate].
    destruct (String.eqb (strip (upper raw)) "").
    + intros H. injection H as <- _. repeat split; assumption.
    + unfold insert_watch.
      destruct (existsb (String.eqb (strip (upper raw))) (watchlist db));
        intros H; injection H as <- _; repeat split; try assumption.
      simpl. apply Forall_snoc; [exact Hw | apply strip_upper_fixed].
  - intros lib req db db' r (Hs & Hw & Ha) Hrun.
    destruct (add_alert_inv lib req db db' r Hrun)
      as (raw & rt & t & _ & _ & _ & -> & _).
    repeat split; try assumption. simpl. unfold insert_alert.
    rewrite map_app. simpl.
    apply Forall_snoc; [exact Ha | apply strip_upper_fixed].
Qed.

Lemma stored_symbols_normalized_witness :
  normalized_symbols (mkdb [] [] [mkalert "BRK.B" (Float.of_Z 10)]).
Proof.
  destruct stored_symbols_normalized as (H0 & _ & _ & Ha).
  apply (Ha (Demo.lib []) (mkrequest POST [("symbol", " brk.b "); ("target", "10")])
           init_db _ (Redirect "/") H0).
  vm_compute. reflexivity.
Defined.

(** ** Order of quotes *)

Lemma SFleb_trans (a b c : float) :
  SFleb a b = true -> SFleb b c = true -> SFleb a c = true.
Proof.
  unfold SFleb.
  destruct a as [sa|sa| |sa ma ea], b as [sb|sb| |sb mb eb],
    c as [sc|sc| |sc mc ec]; simpl;
    try discriminate; try reflexivity;
    try (destruct sa; simpl; try discriminate; try reflexivity);
    try (destruct sb; simpl; try discriminate; try reflexivity);
    try (destruct sc; simpl; try discriminate; try reflexivity);
    rewrite ?Pos.compare_cont_spec; simpl Pos.switch_Eq;
    destruct (Z.compare_spec ea eb), (Z.compare_spec eb ec),
      (Z.compare_spec ea ec);
    try discriminate; try reflexivity; try lia; subst;
    destruct (Pos.compare_spec ma mb), (Pos.compare_spec mb mc),
      (Pos.compare_spec ma mc);
    simpl; try discriminate; try reflexivity; try lia.
Qed.

(** X20. A higher quote never un-triggers an alert: if an alert is hit
    at quote [p], it is hit at every quote [p'] with [p' >= p]. *)
Theorem higher_quote_still_hits (lib lib' : library) (a : alert) (p p' : float) :
  get_live_price lib (alert_symbol a) = Some p ->
  get_live_price lib' (alert_symbol a) = Some p' ->
  Float.geb p' p = true ->
  a_hit (alert_entry lib a) = true ->
  a_hit (alert_entry lib' a) = true.
Proof.
  unfold alert_entry. intros Hp Hp' Hge. rewrite Hp, Hp'. simpl.
  unfold Float.geb in *. intros Hhit.
  exact (SFleb_trans _ _ _ Hhit Hge).
Qed.

Lemma higher_quote_still_hits_witness :
  a_hit (alert_entry (Demo.lib [("ACME", Float.of_Z 15)])
           (mkalert "ACME" (Float.of_Z 10))) = true.
Proof.
  apply (higher_quote_still_hits (Demo.lib [("ACME", Float.of_Z 12)])
           (Demo.lib [("ACME", Float.of_Z 15)])
           (mkalert "ACME" (Float.of_Z 10)) (Float.of_Z 12) (Float.of_Z 15));
    reflexivity.
Defined.
